(** * AskMyVideo front end: the two [app/page.tsx] session orchestrators

  A shallow embedding of the client logic of [frontend/youtube_chat/app/page.tsx]:
  the YouTube page (module [Session]: [prepareVideo], [askVideoQuestion],
  [callBackend]) and the document-chat page (module [Document]:
  [handleUpload], [handleSendQuestion]).

  React state is a record, one field per [useState] slot, and every setter is
  a function on that record.  An [async] handler is split at its single
  [await] on the network: the part that runs inside the click event
  ([*_begin], which returns the request it dispatches, if any) and the part
  that runs when the promise settles ([*_resume], a transformer of the state
  current at that time, since it only calls setters).  The network is a list
  of requests in flight, settled in any order by the environment. *)

From Stdlib Require Import List ZArith NArith Bool String Ascii Lia.
Import ListNotations.

(** ** JavaScript strings and values *)

Module Js.

(** A JavaScript string is a sequence of UTF-16 code units. *)
Definition code_unit := N.
Definition jsstring := list code_unit.

(** An ASCII literal of the source. *)
Definition lit (s : string) : jsstring :=
  map N_of_ascii (list_ascii_of_string s).

(** U+2026, the ellipsis that ends the progress messages. *)
Definition ellipsis : jsstring := [8230%N].

(** [Boolean(s)] for a string: the empty string is the only falsy one. *)
Definition truthy (s : jsstring) : bool :=
  match s with
  | [] => false
  | _ :: _ => true
  end.

(** [a || b] on strings. *)
Definition or_else (a b : jsstring) : jsstring :=
  if truthy a then a else b.

(** An element of a [string[]] that came out of [response.json()]: the
    declared type says string, the JSON may hold [null]. *)
Definition entry := option jsstring.

Definition truthy_entry (e : entry) : bool :=
  match e with
  | Some s => truthy s
  | None => false
  end.

(** [a ?? b]. *)
Definition nullish {A : Type} (a : option A) (b : A) : A :=
  match a with
  | Some v => v
  | None => b
  end.

(** The text React renders for [{src}]: [null] renders nothing. *)
Definition text_of (e : entry) : jsstring := nullish e [].

(** ECMAScript WhiteSpace and LineTerminator code points, the ones
    [String.prototype.trim] strips. *)
Definition is_white_space (c : code_unit) : bool :=
  ((9 <=? c) && (c <=? 13) || (c =? 32) || (c =? 160) || (c =? 5760)
   || (8192 <=? c) && (c <=? 8202) || (c =? 8232) || (c =? 8233)
   || (c =? 8239) || (c =? 8287) || (c =? 12288) || (c =? 65279))%N.

Fixpoint trimStart (s : jsstring) : jsstring :=
  match s with
  | [] => []
  | c :: rest => if is_white_space c then trimStart rest else s
  end.

Definition trimEnd (s : jsstring) : jsstring := rev (trimStart (rev s)).

Definition trim (s : jsstring) : jsstring := trimEnd (trimStart s).

End Js.

(** ** The network: [fetch], [response.ok], [response.text()], [response.json()] *)

Module Fetch.
Import Js.

(** What [await response.json()] gives: it throws, or it yields data of the
    type the caller casts it to. *)
Inductive Body (A : Type) : Type :=
| BodyThrows (message : jsstring)
| BodyData (data : A).

(** How a [fetch] promise settles: rejected (no response at all), or
    fulfilled with a response of some status whose body can be read as text
    or as JSON. *)
Inductive Reply (A : Type) : Type :=
| Rejected (message : jsstring)
| Response (status : Z) (text : jsstring) (json : Body A).

Arguments BodyThrows {A} message.
Arguments BodyData {A} data.
Arguments Rejected {A} message.
Arguments Response {A} status text json.

(** [response.ok]: the status is in the range 200-299. *)
Definition ok (status : Z) : bool :=
  ((200 <=? status) && (status <=? 299))%Z.

(** The outcome of a [try] body: it threw an [Error] with a message, or ran
    to its end with a value. *)
Inductive Result (A : Type) : Type :=
| Threw (message : jsstring)
| Returned (value : A).

Arguments Threw {A} message.
Arguments Returned {A} value.

(** The pattern shared by the three call sites:
<<
    const response = await fetch(...);
    if (!response.ok) {
      throw new Error((await response.text()) || fallback);
    }
    ... await response.json() ...
>> *)
Definition receive {A : Type} (fallback : jsstring) (r : Reply A) : Result A :=
  match r with
  | Rejected message => Threw message
  | Response status text json =>
      if negb (ok status) then Threw (or_else text fallback)
      else match json with
           | BodyThrows message => Threw message
           | BodyData data => Returned data
           end
  end.

(** [l] without its [n]-th element. *)
Fixpoint remove_nth {A : Type} (n : nat) (l : list A) : list A :=
  match l, n with
  | [], _ => []
  | _ :: rest, O => rest
  | x :: rest, S k => x :: remove_nth k rest
  end.

End Fetch.

(** ** The session variant: the YouTube page *)

Module Session.
Import Js Fetch.

(** [useState<"index" | "ask" | null>]: [null] is [None]. *)
Inductive Loading : Type := index | ask.

Definition Loading_eqb (a b : Loading) : bool :=
  match a, b with
  | index, index | ask, ask => true
  | _, _ => false
  end.

Record State : Type := mkState {
  youtubeUrl : jsstring;
  question : jsstring;
  answer : jsstring;
  sources : list entry;
  status : jsstring;
  error : jsstring;
  loading : option Loading
}.

Definition initial : State := mkState [] [] [] [] [] [] None.

Definition setYoutubeUrl (v : jsstring) (s : State) : State :=
  mkState v (question s) (answer s) (sources s) (status s) (error s) (loading s).
Definition setQuestion (v : jsstring) (s : State) : State :=
  mkState (youtubeUrl s) v (answer s) (sources s) (status s) (error s) (loading s).
Definition setAnswer (v : jsstring) (s : State) : State :=
  mkState (youtubeUrl s) (question s) v (sources s) (status s) (error s) (loading s).
Definition setSources (v : list entry) (s : State) : State :=
  mkState (youtubeUrl s) (question s) (answer s) v (status s) (error s) (loading s).
Definition setStatus (v : jsstring) (s : State) : State :=
  mkState (youtubeUrl s) (question s) (answer s) (sources s) v (error s) (loading s).
Definition setError (v : jsstring) (s : State) : State :=
  mkState (youtubeUrl s) (question s) (answer s) (sources s) (status s) v (loading s).
Definition setLoading (v : option Loading) (s : State) : State :=
  mkState (youtubeUrl s) (question s) (answer s) (sources s) (status s) (error s) v.

(** The JSON bodies the page posts. *)
Inductive Request : Type :=
| Prepare (youtube_url : jsstring)
| Ask (youtube_url : jsstring) (question : jsstring).

(** The object [askVideoQuestion] destructures: either field may be
    missing or [null]. *)
Record AskData : Type := mkAskData {
  ans : option jsstring;
  srcs : option (list entry)
}.

Definition fallback : jsstring := lit "Request failed.".

(** [callBackend], from the settled [fetch] on. *)
Definition callBackend {A : Type} (r : Reply A) : Result A :=
  receive fallback r.

(** [prepareVideo] up to [await callBackend("/prepare", ...)]. *)
Definition prepareVideo_begin (s : State) : State * option Request :=
  if negb (truthy (youtubeUrl s)) then
    (setError (lit "Paste a YouTube URL first.") s, None)
  else
    (setError [] (setStatus (lit "Indexing video" ++ ellipsis)
                    (setLoading (Some index) s)),
     Some (Prepare (youtubeUrl s))).

(** [prepareVideo] from the settled call on: the rest of [try], or [catch],
    then [finally]. *)
Definition prepareVideo_resume {A : Type} (r : Reply A) (s : State) : State :=
  setLoading None
    match callBackend r with
    | Returned _ => setStatus (lit "Video ready. Ask away!") s
    | Threw message => setError message (setStatus [] s)
    end.

(** [askVideoQuestion] up to [await callBackend("/ask", ...)]. *)
Definition askVideoQuestion_begin (s : State) : State * option Request :=
  if negb (truthy (youtubeUrl s)) || negb (truthy (question s)) then
    (setError (lit "Enter both the URL and a question.") s, None)
  else
    (setError [] (setStatus (lit "Thinking" ++ ellipsis)
                    (setLoading (Some ask) s)),
     Some (Ask (youtubeUrl s) (question s))).

(** [askVideoQuestion] from the settled call on. *)
Definition askVideoQuestion_resume (r : Reply AskData) (s : State) : State :=
  setLoading None
    match callBackend r with
    | Returned data =>
        setStatus [] (setSources (nullish (srcs data) [])
                        (setAnswer (nullish (ans data) []) s))
    | Threw message =>
        setError message (setStatus [] (setSources [] (setAnswer [] s)))
    end.

(** The [disabled] attribute of the two buttons. *)
Definition prepare_disabled (s : State) : bool :=
  match loading s with
  | Some k => Loading_eqb k index
  | None => false
  end.

Definition ask_disabled (s : State) : bool :=
  match loading s with
  | Some k => Loading_eqb k ask
  | None => false
  end.

(** The list under "Sources:", when the page shows one:
<<
    {answer && ( ... {!!sources.length && ( ...
        {sources.map((src, i) => (<li>{src || "Transcript chunk"}</li>))}
>> *)
Definition render_sources (s : State) : option (list jsstring) :=
  if truthy (answer s) && negb (Nat.eqb (List.length (sources s)) 0) then
    Some (map (fun src => or_else (text_of src) (lit "Transcript chunk"))
            (sources s))
  else None.

(** The page together with its requests in flight. *)
Record System : Type := mkSystem {
  ui : State;
  inflight : list Request
}.

Definition start : System := mkSystem initial [].

Inductive Event : Type :=
| ChangeUrl (v : jsstring)
| ChangeQuestion (v : jsstring)
| ClickPrepare
| ClickAsk
| SettlePrepare (n : nat) (r : Reply unit)
| SettleAsk (n : nat) (r : Reply AskData).

Definition dispatch (sys : System) (out : State * option Request) : System :=
  match snd out with
  | Some req => mkSystem (fst out) (inflight sys ++ [req])
  | None => mkSystem (fst out) (inflight sys)
  end.

(** A click on a disabled button reaches no handler. *)
Definition click_prepare (sys : System) : System :=
  if prepare_disabled (ui sys) then sys
  else dispatch sys (prepareVideo_begin (ui sys)).

Definition click_ask (sys : System) : System :=
  if ask_disabled (ui sys) then sys
  else dispatch sys (askVideoQuestion_begin (ui sys)).

Definition step (sys : System) (e : Event) : System :=
  match e with
  | ChangeUrl v => mkSystem (setYoutubeUrl v (ui sys)) (inflight sys)
  | ChangeQuestion v => mkSystem (setQuestion v (ui sys)) (inflight sys)
  | ClickPrepare => click_prepare sys
  | ClickAsk => click_ask sys
  | SettlePrepare n r =>
      match nth_error (inflight sys) n with
      | Some (Prepare _) =>
          mkSystem (prepareVideo_resume r (ui sys)) (remove_nth n (inflight sys))
      | _ => sys
      end
  | SettleAsk n r =>
      match nth_error (inflight sys) n with
      | Some (Ask _ _) =>
          mkSystem (askVideoQuestion_resume r (ui sys)) (remove_nth n (inflight sys))
      | _ => sys
      end
  end.

Definition run (events : list Event) (sys : System) : System :=
  fold_left step events sys.

Definition is_prepare (req : Request) : bool :=
  match req with
  | Prepare _ => true
  | Ask _ _ => false
  end.

Definition is_ask (req : Request) : bool := negb (is_prepare req).

(** The requests of one kind still in flight. *)
Definition preparing (sys : System) : list Request :=
  filter is_prepare (inflight sys).

Definition asking (sys : System) : list Request :=
  filter is_ask (inflight sys).

End Session.

(** ** The document variant: the upload-and-chat page *)

Module Document.
Import Js Fetch.

Inductive SourceType : Type := pdf | txt | text.

Inductive Role : Type := user | assistant.

(** [type Message]; the optional [sources] field is [None] when absent. *)
Record Message : Type := mkMessage {
  id : jsstring;
  role : Role;
  content : jsstring;
  msg_sources : option (list entry)
}.

(** A browser [File], known here by its name only. *)
Record File : Type := mkFile { name : jsstring }.

Record State : Type := mkState {
  sourceType : SourceType;
  pdfFile : option File;
  txtFile : option File;
  plainText : jsstring;
  documentId : option jsstring;
  messages : list Message;
  question : jsstring;
  uploadStatus : jsstring;
  chatStatus : jsstring;
  error : option jsstring;
  isUploading : bool;
  isSending : bool;
  fileInputKey : Z
}.

Definition initial : State :=
  mkState pdf None None [] None [] [] [] [] None false false 0.

Definition setSourceType (v : SourceType) (s : State) : State :=
  mkState v (pdfFile s) (txtFile s) (plainText s) (documentId s) (messages s)
    (question s) (uploadStatus s) (chatStatus s) (error s) (isUploading s)
    (isSending s) (fileInputKey s).
Definition setPdfFile (v : option File) (s : State) : State :=
  mkState (sourceType s) v (txtFile s) (plainText s) (documentId s) (messages s)
    (question s) (uploadStatus s) (chatStatus s) (error s) (isUploading s)
    (isSending s) (fileInputKey s).
Definition setTxtFile (v : option File) (s : State) : State :=
  mkState (sourceType s) (pdfFile s) v (plainText s) (documentId s) (messages s)
    (question s) (uploadStatus s) (chatStatus s) (error s) (isUploading s)
    (isSending s) (fileInputKey s).
Definition setPlainText (v : jsstring) (s : State) : State :=
  mkState (sourceType s) (pdfFile s) (txtFile s) v (documentId s) (messages s)
    (question s) (uploadStatus s) (chatStatus s) (error s) (isUploading s)
    (isSending s) (fileInputKey s).
Definition setDocumentId (v : option jsstring) (s : State) : State :=
  mkState (sourceType s) (pdfFile s) (txtFile s) (plainText s) v (messages s)
    (question s) (uploadStatus s) (chatStatus s) (error s) (isUploading s)
    (isSending s) (fileInputKey s).
(** [setMessages] takes an updater, as in [setMessages((prev) => ...)]. *)
Definition setMessages (f : list Message -> list Message) (s : State) : State :=
  mkState (sourceType s) (pdfFile s) (txtFile s) (plainText s) (documentId s)
    (f (messages s)) (question s) (uploadStatus s) (chatStatus s) (error s)
    (isUploading s) (isSending s) (fileInputKey s).
Definition setQuestion (v : jsstring) (s : State) : State :=
  mkState (sourceType s) (pdfFile s) (txtFile s) (plainText s) (documentId s)
    (messages s) v (uploadStatus s) (chatStatus s) (error s) (isUploading s)
    (isSending s) (fileInputKey s).
Definition setUploadStatus (v : jsstring) (s : State) : State :=
  mkState (sourceType s) (pdfFile s) (txtFile s) (plainText s) (documentId s)
    (messages s) (question s) v (chatStatus s) (error s) (isUploading s)
    (isSending s) (fileInputKey s).
Definition setChatStatus (v : jsstring) (s : State) : State :=
  mkState (sourceType s) (pdfFile s) (txtFile s) (plainText s) (documentId s)
    (messages s) (question s) (uploadStatus s) v (error s) (isUploading s)
    (isSending s) (fileInputKey s).
Definition setError (v : option jsstring) (s : State) : State :=
  mkState (sourceType s) (pdfFile s) (txtFile s) (plainText s) (documentId s)
    (messages s) (question s) (uploadStatus s) (chatStatus s) v (isUploading s)
    (isSending s) (fileInputKey s).
Definition setIsUploading (v : bool) (s : State) : State :=
  mkState (sourceType s) (pdfFile s) (txtFile s) (plainText s) (documentId s)
    (messages s) (question s) (uploadStatus s) (chatStatus s) (error s) v
    (isSending s) (fileInputKey s).
Definition setIsSending (v : bool) (s : State) : State :=
  mkState (sourceType s) (pdfFile s) (txtFile s) (plainText s) (documentId s)
    (messages s) (question s) (uploadStatus s) (chatStatus s) (error s)
    (isUploading s) v (fileInputKey s).
(** [setFileInputKey] takes an updater, as in [setFileInputKey((key) => key + 1)]. *)
Definition setFileInputKey (f : Z -> Z) (s : State) : State :=
  mkState (sourceType s) (pdfFile s) (txtFile s) (plainText s) (documentId s)
    (messages s) (question s) (uploadStatus s) (chatStatus s) (error s)
    (isUploading s) (isSending s) (f (fileInputKey s)).

(** [Boolean(documentId)]. *)
Definition hasActiveDocument (s : State) : bool :=
  truthy_entry (documentId s).

Definition resetFileInputs (s : State) : State :=
  setFileInputKey (fun key => (key + 1)%Z)
    (setPlainText [] (setTxtFile None (setPdfFile None s))).

(** The one field [handleUpload] appends to its [FormData]. *)
Inductive FormField : Type :=
| pdf_file (f : File)
| txt_file (f : File)
| plain_text (t : jsstring).

Inductive Request : Type :=
| Upload (form : FormField)
| Chat (question : jsstring) (document_id : option jsstring).

(** [(await response.json()) as { document_id: string }]: the cast checks
    nothing, so the field is [None] when the body has no [document_id] (the
    page then reads [undefined], which [documentId] holds as it holds
    [null]). *)
Record UploadData : Type := mkUploadData { document_id : option jsstring }.

(** [(await response.json()) as { answer: string; sources?: string[] }];
    [data.answer?.trim()] allows for a missing answer. *)
Record ChatData : Type := mkChatData {
  data_answer : option jsstring;
  data_sources : option (list entry)
}.

Definition upload_fallback : jsstring := lit "Upload failed.".
Definition chat_fallback : jsstring := lit "Chat request failed.".

(** U+26A0 U+FE0F and a space: the opening of the template literal of the
    [catch] block of [handleSendQuestion]. *)
Definition warning : jsstring := [9888%N; 65039%N; 32%N].

(** [handleUpload] up to [await fetch(`${BACKEND_URL}/upload`, ...)]. *)
Definition handleUpload_begin (s : State) : State * option Request :=
  let cleared := setUploadStatus [] (setError None s) in
  let send form :=
    (setUploadStatus (lit "Uploading and indexing" ++ ellipsis)
       (setIsUploading true cleared),
     Some (Upload form)) in
  match sourceType s with
  | pdf =>
      match pdfFile s with
      | None => (setError (Some (lit "Select a PDF file first.")) cleared, None)
      | Some f => send (pdf_file f)
      end
  | txt =>
      match txtFile s with
      | None => (setError (Some (lit "Select a TXT file first.")) cleared, None)
      | Some f => send (txt_file f)
      end
  | text =>
      if negb (truthy (trim (plainText s))) then
        (setError (Some (lit "Paste some text before uploading.")) cleared, None)
      else send (plain_text (trim (plainText s)))
  end.

(** [handleUpload] from the settled [fetch] on. *)
Definition handleUpload_resume (r : Reply UploadData) (s : State) : State :=
  setIsUploading false
    match receive upload_fallback r with
    | Returned data =>
        resetFileInputs
          (setUploadStatus (lit "Document ready. Start chatting!")
             (setQuestion []
                (setMessages (fun _ => [])
                   (setDocumentId (document_id data) s))))
    | Threw message => setError (Some message) (setUploadStatus [] s)
    end.

(** [handleSendQuestion] up to [await fetch(`${BACKEND_URL}/chat`, ...)];
    [new_id] is what [generateId()] returns for the user message. *)
Definition handleSendQuestion_begin (new_id : jsstring) (s : State)
  : State * option Request :=
  let trimmedQuestion := trim (question s) in
  if negb (hasActiveDocument s) then
    (setError (Some (lit "Upload a document before chatting.")) s, None)
  else if negb (truthy trimmedQuestion) then
    (setError (Some (lit "Type a question first.")) s, None)
  else
    let userMessage := mkMessage new_id user trimmedQuestion None in
    (setQuestion []
       (setMessages (fun prev => prev ++ [userMessage])
          (setIsSending true
             (setChatStatus (lit "Thinking" ++ ellipsis) (setError None s)))),
     Some (Chat trimmedQuestion (documentId s))).

(** [handleSendQuestion] from the settled [fetch] on; [new_id] is what
    [generateId()] returns for the assistant message. *)
Definition handleSendQuestion_resume (new_id : jsstring) (r : Reply ChatData)
  (s : State) : State :=
  let assistantMessage :=
    match receive chat_fallback r with
    | Returned data =>
        mkMessage new_id assistant
          (or_else (match data_answer data with
                    | Some a => trim a
                    | None => []
                    end)
             (lit "I wasn't able to craft a response."))
          (Some (nullish (data_sources data) []))
    | Threw message => mkMessage new_id assistant (warning ++ message) None
    end in
  setIsSending false
    (setChatStatus [] (setMessages (fun prev => prev ++ [assistantMessage]) s)).

Definition switchSource (v : SourceType) (s : State) : State :=
  setError None (setSourceType v s).

(** The list under "Sources:" of one message bubble, when it is shown:
<<
    const sources = (message.sources ?? []).filter(Boolean);
    ... {sources.length > 0 && ( ... sources.map((src, index) => (<li>{src}</li>))
>> *)
Definition render_sources (m : Message) : option (list jsstring) :=
  let sources := filter truthy_entry (nullish (msg_sources m) []) in
  if (0 <? List.length sources)%nat then Some (map text_of sources) else None.

(** The page together with its requests in flight. *)
Record System : Type := mkSystem {
  ui : State;
  inflight : list Request
}.

Definition start : System := mkSystem initial [].

Inductive Event : Type :=
| SwitchSource (v : SourceType)
| SelectPdf (f : option File)
| SelectTxt (f : option File)
| ChangePlainText (v : jsstring)
| ChangeQuestion (v : jsstring)
| ClickUpload
| ClickSend (new_id : jsstring)
| SettleUpload (n : nat) (r : Reply UploadData)
| SettleChat (n : nat) (new_id : jsstring) (r : Reply ChatData).

Definition dispatch (sys : System) (out : State * option Request) : System :=
  match snd out with
  | Some req => mkSystem (fst out) (inflight sys ++ [req])
  | None => mkSystem (fst out) (inflight sys)
  end.

(** The buttons are [disabled={isUploading}] and [disabled={isSending}]: a
    click on a disabled button reaches no handler. *)
Definition click_upload (sys : System) : System :=
  if isUploading (ui sys) then sys
  else dispatch sys (handleUpload_begin (ui sys)).

Definition click_send (new_id : jsstring) (sys : System) : System :=
  if isSending (ui sys) then sys
  else dispatch sys (handleSendQuestion_begin new_id (ui sys)).

Definition step (sys : System) (e : Event) : System :=
  match e with
  | SwitchSource v => mkSystem (switchSource v (ui sys)) (inflight sys)
  | SelectPdf f => mkSystem (setPdfFile f (ui sys)) (inflight sys)
  | SelectTxt f => mkSystem (setTxtFile f (ui sys)) (inflight sys)
  | ChangePlainText v => mkSystem (setPlainText v (ui sys)) (inflight sys)
  | ChangeQuestion v => mkSystem (setQuestion v (ui sys)) (inflight sys)
  | ClickUpload => click_upload sys
  | ClickSend new_id => click_send new_id sys
  | SettleUpload n r =>
      match nth_error (inflight sys) n with
      | Some (Upload _) =>
          mkSystem (handleUpload_resume r (ui sys)) (remove_nth n (inflight sys))
      | _ => sys
      end
  | SettleChat n new_id r =>
      match nth_error (inflight sys) n with
      | Some (Chat _ _) =>
          mkSystem (handleSendQuestion_resume new_id r (ui sys))
            (remove_nth n (inflight sys))
      | _ => sys
      end
  end.

Definition run (events : list Event) (sys : System) : System :=
  fold_left step events sys.

Definition is_upload (req : Request) : bool :=
  match req with
  | Upload _ => true
  | Chat _ _ => false
  end.

Definition is_chat (req : Request) : bool := negb (is_upload req).

(** The requests of one kind still in flight. *)
Definition uploading (sys : System) : list Request :=
  filter is_upload (inflight sys).

Definition chatting (sys : System) : list Request :=
  filter is_chat (inflight sys).

(** Each flag is set exactly while one request of its kind is in flight. *)
Definition guarded (sys : System) : Prop :=
  List.length (uploading sys) = (if isUploading (ui sys) then 1 else 0)%nat
  /\ List.length (chatting sys) = (if isSending (ui sys) then 1 else 0)%nat.

End Document.

(** ** Sample inputs *)

Module Samples.
Import Js Fetch.

Definition url : jsstring := lit "https://youtu.be/abc".
Definition why : jsstring := lit "Why?".

(** A 200 response to [/prepare] whose body parses. *)
Definition prepared : Reply unit := Response 200 [] (BodyData tt).

(** A 200 response to [/ask] with an answer and three sources, two of them falsy. *)
Definition answered : Reply Session.AskData :=
  Response 200 []
    (BodyData (Session.mkAskData (Some (lit "Paris."))
                 (Some [Some []; Some (lit "Ch.1"); None]))).

(** A 500 response with a body. *)
Definition index_missing {A : Type} : Reply A :=
  Response 500 (lit "index missing") (BodyThrows []).

(** A document page with the "Paste Text" tab chosen and a text pasted. *)
Definition pasted : Document.State :=
  Document.setPlainText (lit "Paris is the capital of France.")
    (Document.setSourceType Document.text Document.initial).

(** 200 responses to [/upload]. *)
Definition doc1 : Reply Document.UploadData :=
  Response 200 [] (BodyData (Document.mkUploadData (Some (lit "doc-1")))).

Definition doc2 : Reply Document.UploadData :=
  Response 201 [] (BodyData (Document.mkUploadData (Some (lit "doc-2")))).

(** A 200 response to [/upload] whose body is [{}]. *)
Definition no_id : Reply Document.UploadData :=
  Response 200 [] (BodyData (Document.mkUploadData None)).

(** A 200 response to [/chat]. *)
Definition paris : Reply Document.ChatData :=
  Response 200 []
    (BodyData (Document.mkChatData (Some (lit "Paris."))
                 (Some [Some (lit "chunk-1")]))).

(** The end-to-end scenario: upload the pasted text, type a question, send
    it, receive the answer. *)
Definition capital : jsstring := lit "What is the capital of France?".

Definition conversation : list Document.Event :=
  [Document.SwitchSource Document.text;
   Document.ChangePlainText (lit "Paris is the capital of France.");
   Document.ClickUpload;
   Document.SettleUpload 0 doc1;
   Document.ChangeQuestion capital;
   Document.ClickSend (lit "m1");
   Document.SettleChat 0 (lit "m2") paris].

Definition chatted : Document.State :=
  Document.ui (Document.run conversation Document.start).

End Samples.

(** ** Configuration: [BACKEND_URL] *)

Module Config.
Import Js.

Definition slash : code_unit := 47%N.

(** [s.replace(/\/$/, "")]: without the [m] flag [$] matches at the end of
    the input only, so the one slash that ends the string, if any, goes. *)
Fixpoint strip_trailing_slash (s : jsstring) : jsstring :=
  match s with
  | [] => []
  | c :: rest =>
      match rest with
      | [] => if (c =? slash)%N then [] else [c]
      | _ :: _ => c :: strip_trailing_slash rest
      end
  end.

Definition default_backend : jsstring := lit "http://127.0.0.1:8000".

(** [(process.env.NEXT_PUBLIC_BACKEND_URL ?? "http://127.0.0.1:8000").replace(/\/$/, "")];
    [env] is the value of the variable, [None] when it is not set. *)
Definition BACKEND_URL (env : option jsstring) : jsstring :=
  strip_trailing_slash (nullish env default_backend).

(** [`${BACKEND_URL}${path}`], the URL every [fetch] of the two pages uses. *)
Definition endpoint (env : option jsstring) (path : jsstring) : jsstring :=
  BACKEND_URL env ++ path.

Definition ends_with_slash (s : jsstring) : bool :=
  match rev s with
  | c :: _ => (c =? slash)%N
  | [] => false
  end.

End Config.

(** ** Invariants of the session page *)

Module SessionInv.
Import Js Fetch Session.

(** The [loading] slot names a kind only while a request of that kind is in
    flight. *)
Definition slot_backed (sys : System) : bool :=
  match loading (ui sys) with
  | Some index => existsb is_prepare (inflight sys)
  | Some ask => existsb is_ask (inflight sys)
  | None => true
  end.

(** A request that passed the validation of its handler. *)
Definition validated (req : Request) : bool :=
  match req with
  | Prepare u => truthy u
  | Ask u q => truthy u && truthy q
  end.

End SessionInv.

(** ** Invariants and remaining handlers of the document page *)

Module DocumentInv.
Import Js Fetch Document.

(** [handleFileSelection]: [event.target.files?.[0] ?? null] goes to the
    setter; [files] is the [FileList] of the input, [None] when it is null. *)
Definition handleFileSelection (files : option (list File))
  (setter : option File -> State -> State) (s : State) : State :=
  setter (match files with
          | Some (file :: _) => Some file
          | Some [] | None => None
          end) s.

(** A request that passed the validation of its handler. *)
Definition validated (req : Request) : Prop :=
  match req with
  | Upload (plain_text t) => t <> [] /\ trim t = t
  | Upload (pdf_file _) | Upload (txt_file _) => True
  | Chat q doc => q <> [] /\ trim q = q /\ truthy_entry doc = true
  end.

(** A turn as the two handlers build them. *)
Definition well_formed_turn (m : Message) : Prop :=
  content m <> []
  /\ match role m with
     | user => trim (content m) = content m /\ msg_sources m = None
     | assistant => True
     end.

Definition uploading_text : jsstring := lit "Uploading and indexing" ++ ellipsis.
Definition ready_text : jsstring := lit "Document ready. Start chatting!".
Definition thinking_text : jsstring := lit "Thinking" ++ ellipsis.

(** The two status lines follow the two flags. *)
Definition status_in_step (s : State) : Prop :=
  chatStatus s = (if isSending s then thinking_text else [])
  /\ (if isUploading s then uploadStatus s = uploading_text
      else uploadStatus s = [] \/ uploadStatus s = ready_text).

(** The settling of an [/upload] whose [try] block runs to its end. *)
Definition is_upload_success (e : Event) : bool :=
  match e with
  | SettleUpload _ r =>
      match receive upload_fallback r with
      | Returned _ => true
      | Threw _ => false
      end
  | _ => false
  end.

Definition no_upload_success (events : list Event) : bool :=
  forallb (fun e => negb (is_upload_success e)) events.

(** The event is not the settling of an [/upload] that succeeds without a
    non-empty [document_id] in its body. *)
Definition returns_id (e : Event) : bool :=
  match e with
  | SettleUpload _ r =>
      match receive upload_fallback r with
      | Returned data => truthy_entry (document_id data)
      | Threw _ => true
      end
  | _ => true
  end.

Definition uploads_return_ids (events : list Event) : bool :=
  forallb returns_id events.

End DocumentInv.

(** ** Facts about strings and the network pattern *)

Module JsFacts.
Import Js Fetch.

Example trim_what_is_x : trim (lit "  What is X?  ") = lit "What is X?".
Proof. reflexivity. Qed.

Example trim_blank : trim (lit "   ") = [].
Proof. reflexivity. Qed.

Lemma trimStart_head (s : jsstring) :
  match trimStart s with
  | [] => True
  | c :: _ => is_white_space c = false
  end.
Proof.
  induction s as [|c rest IH]; simpl; [exact I|].
  destruct (is_white_space c) eqn:E; [exact IH | exact E].
Qed.

Lemma trimStart_fixed (s : jsstring) :
  match s with
  | [] => True
  | c :: _ => is_white_space c = false
  end -> trimStart s = s.
Proof.
  destruct s as [|c rest]; simpl; [reflexivity|].
  intros ->. reflexivity.
Qed.

Lemma trimStart_idem (s : jsstring) : trimStart (trimStart s) = trimStart s.
Proof. apply trimStart_fixed, trimStart_head. Qed.

(** Stripping the front of a string whose front is already stripped leaves
    its first code unit in place, also after its end was stripped. *)
Lemma trimStart_app_last (s : jsstring) (c : code_unit) :
  is_white_space c = false -> trimStart (s ++ [c]) = trimStart s ++ [c].
Proof.
  intros Hc. induction s as [|d rest IH]; simpl.
  - rewrite Hc. reflexivity.
  - destruct (is_white_space d); [exact IH | reflexivity].
Qed.

Lemma trimEnd_head (s : jsstring) (c : code_unit) :
  is_white_space c = false -> exists rest, trimEnd (c :: s) = c :: rest.
Proof.
  intros Hc. unfold trimEnd. simpl.
  rewrite (trimStart_app_last _ _ Hc), rev_app_distr. simpl. eauto.
Qed.

Lemma trimEnd_idem (s : jsstring) : trimEnd (trimEnd s) = trimEnd s.
Proof.
  unfold trimEnd. rewrite rev_involutive, trimStart_idem. reflexivity.
Qed.

(** [trim] is idempotent: what the page sends needs no second trimming. *)
Lemma trim_idem (s : jsstring) : trim (trim s) = trim s.
Proof.
  unfold trim.
  assert (H : trimStart (trimEnd (trimStart s)) = trimEnd (trimStart s)).
  { pose proof (trimStart_head s) as Hh.
    destruct (trimStart s) as [|c rest] eqn:E; [reflexivity|].
    destruct (trimEnd_head rest c Hh) as [rest' ->].
    simpl. rewrite Hh. reflexivity. }
  rewrite H. apply trimEnd_idem.
Qed.

(** When the pattern throws, and with which message. *)
Lemma receive_not_ok (A : Type) (fb : jsstring) (status : Z) (text : jsstring)
  (json : Body A) :
  ok status = false -> receive fb (Response status text json) = Threw (or_else text fb).
Proof. intros H. simpl. rewrite H. reflexivity. Qed.

Lemma receive_ok (A : Type) (fb : jsstring) (status : Z) (text : jsstring)
  (data : A) :
  ok status = true -> receive fb (Response status text (BodyData data)) = Returned data.
Proof. intros H. simpl. rewrite H. reflexivity. Qed.

Lemma ok_range (status : Z) : ok status = true <-> (200 <= status <= 299)%Z.
Proof. unfold ok. rewrite andb_true_iff, !Z.leb_le. tauto. Qed.

Lemma not_ok_range (status : Z) :
  ok status = false <-> (status < 200 \/ 299 < status)%Z.
Proof. unfold ok. rewrite andb_false_iff, !Z.leb_gt. tauto. Qed.

Lemma filter_remove_nth_hit (A : Type) (p : A -> bool) (l : list A) (n : nat) (x : A) :
  nth_error l n = Some x -> p x = true ->
  S (List.length (filter p (remove_nth n l))) = List.length (filter p l).
Proof.
  revert n. induction l as [|y rest IH]; intros [|k] Hn Hp; simpl in *;
    try discriminate.
  - injection Hn as ->. rewrite Hp. reflexivity.
  - destruct (p y); simpl; rewrite <- (IH k Hn Hp); reflexivity.
Qed.

Lemma filter_remove_nth_miss (A : Type) (p : A -> bool) (l : list A) (n : nat) (x : A) :
  nth_error l n = Some x -> p x = false ->
  filter p (remove_nth n l) = filter p l.
Proof.
  revert n. induction l as [|y rest IH]; intros [|k] Hn Hp; simpl in *;
    try discriminate.
  - injection Hn as ->. rewrite Hp. reflexivity.
  - rewrite (IH k Hn Hp). reflexivity.
Qed.

End JsFacts.

(** ** The session variant *)

Module SessionFacts.
Import Js Fetch Session Samples.

(** The setters touch one slot each. *)
Lemma resume_ask_threw (r : Reply AskData) (s : State) (message : jsstring) :
  callBackend r = Threw message ->
  askVideoQuestion_resume r s =
    mkState (youtubeUrl s) (question s) [] [] [] message None.
Proof. intros H. unfold askVideoQuestion_resume. rewrite H. reflexivity. Qed.

Lemma resume_ask_returned (r : Reply AskData) (s : State) (data : AskData) :
  callBackend r = Returned data ->
  askVideoQuestion_resume r s =
    mkState (youtubeUrl s) (question s) (nullish (ans data) [])
      (nullish (srcs data) []) [] (error s) None.
Proof. intros H. unfold askVideoQuestion_resume. rewrite H. reflexivity. Qed.

(** C10.  In the session variant a failed query (the call threw, whatever the
    cause) empties the displayed answer and the displayed sources, whatever
    they held before, so a previous successful answer is wiped and no source
    list is rendered any more; the error banner carries the message of the
    failure. *)
Theorem failed_ask_wipes_previous_answer :
  forall (r : Reply AskData) (s : State) (message : jsstring),
    callBackend r = Threw message ->
    answer (askVideoQuestion_resume r s) = []
    /\ sources (askVideoQuestion_resume r s) = []
    /\ render_sources (askVideoQuestion_resume r s) = None
    /\ error (askVideoQuestion_resume r s) = message.
Proof.
  intros r s message H. rewrite (resume_ask_threw r s message H).
  repeat split; reflexivity.
Qed.

Lemma failed_ask_wipes_previous_answer_witness :
  let shown := askVideoQuestion_resume answered initial in
  answer shown = lit "Paris."
  /\ @callBackend AskData index_missing = Threw (lit "index missing")
  /\ answer (askVideoQuestion_resume index_missing shown) = []
  /\ sources (askVideoQuestion_resume index_missing shown) = []
  /\ render_sources (askVideoQuestion_resume index_missing shown) = None
  /\ error (askVideoQuestion_resume index_missing shown) = lit "index missing".
Proof.
  split; [reflexivity|]. split; [reflexivity|].
  apply (failed_ask_wipes_previous_answer index_missing
           (askVideoQuestion_resume answered initial) (lit "index missing")).
  reflexivity.
Defined.

(** C7.  The code at a failing input: after a successful [/prepare] the
    status reads "Video ready. Ask away!"; the user empties the URL field and
    clicks the button again; the early return of [prepareVideo] sets the error
    and leaves the status, so both are shown. *)
Theorem validation_error_leaves_status :
  let s := ui (run [ChangeUrl url; ClickPrepare; SettlePrepare 0 prepared;
                    ChangeUrl []; ClickPrepare] start) in
  status s = lit "Video ready. Ask away!"
  /\ error s = lit "Paste a YouTube URL first."
  /\ truthy (status s) && truthy (error s) = true.
Proof. repeat split; reflexivity. Qed.

(** The same slip in [askVideoQuestion]: its early return keeps the status too. *)
Example ask_validation_error_leaves_status :
  let s := ui (run [ChangeUrl url; ClickPrepare; SettlePrepare 0 prepared;
                    ClickAsk] start) in
  status s = lit "Video ready. Ask away!"
  /\ error s = lit "Enter both the URL and a question.".
Proof. split; reflexivity. Qed.

(** Inside [try] and [catch] the two slots are set in pairs. *)
Lemma begin_dispatch_clears_error (s s' : State) (req : Request) :
  prepareVideo_begin s = (s', Some req) \/ askVideoQuestion_begin s = (s', Some req) ->
  truthy (status s') = true /\ error s' = [].
Proof.
  unfold prepareVideo_begin, askVideoQuestion_begin.
  intros [H|H];
    [destruct (negb (truthy (youtubeUrl s)))
    |destruct (negb (truthy (youtubeUrl s)) || negb (truthy (question s)))];
    inversion H; subst; split; reflexivity.
Qed.

Lemma resume_threw_clears_status (A : Type) (r : Reply A) (ra : Reply AskData)
  (s : State) (m : jsstring) :
  (callBackend r = Threw m -> status (prepareVideo_resume r s) = [])
  /\ (callBackend ra = Threw m -> status (askVideoQuestion_resume ra s) = []).
Proof.
  split; intros H.
  - unfold prepareVideo_resume. rewrite H. reflexivity.
  - rewrite (resume_ask_threw ra s m H). reflexivity.
Qed.

(** C1.  The code at a failing input: with the URL and a question typed, the
    user clicks Prepare, then Ask, then Prepare again while the first
    [/prepare] is still in flight.  [setLoading("ask")] has overwritten
    ["index"], the Prepare button is enabled again, and the third click
    dispatches a second [/prepare]. *)
Theorem second_prepare_while_first_in_flight :
  let before := run [ChangeUrl url; ChangeQuestion why; ClickPrepare; ClickAsk] start in
  preparing before = [Prepare url]
  /\ prepare_disabled (ui before) = false
  /\ preparing (click_prepare before) = [Prepare url; Prepare url].
Proof. repeat split; reflexivity. Qed.

(** Without the click on Ask in between, the second click is stopped. *)
Example second_prepare_stopped :
  let before := run [ChangeUrl url; ChangeQuestion why; ClickPrepare] start in
  preparing before = [Prepare url] /\ click_prepare before = before.
Proof. split; reflexivity. Qed.

(** C8.  The code at a failing input: a [/prepare] and then a [/ask] are in
    flight, the slot reads ["ask"] and the Ask button is disabled; the
    [/prepare] completes and its [finally] runs [setLoading(null)], which
    clears the flag of the [/ask].  The Ask button is enabled while the
    [/ask] is still in flight, and a click dispatches a second one. *)
Theorem prepare_completion_clears_ask_flag :
  let before := run [ChangeUrl url; ChangeQuestion why; ClickPrepare; ClickAsk] start in
  let after := step before (SettlePrepare 0 prepared) in
  (asking before = [Ask url why]
   /\ loading (ui before) = Some ask
   /\ ask_disabled (ui before) = true
   /\ click_ask before = before)
  /\ (asking after = [Ask url why]
      /\ preparing after = []
      /\ loading (ui after) = None
      /\ ask_disabled (ui after) = false
      /\ asking (click_ask after) = [Ask url why; Ask url why]).
Proof. repeat split; reflexivity. Qed.

(** And the other way round: the completion of a [/ask] clears the flag of
    a [/prepare] in flight. *)
Example ask_completion_clears_prepare_flag :
  let before := run [ChangeUrl url; ChangeQuestion why; ClickAsk; ClickPrepare] start in
  let after := step before (SettleAsk 0 answered) in
  loading (ui before) = Some index
  /\ prepare_disabled (ui before) = true
  /\ preparing after = [Prepare url]
  /\ loading (ui after) = None
  /\ prepare_disabled (ui after) = false.
Proof. repeat split; reflexivity. Qed.

End SessionFacts.

(** ** The document variant *)

Module DocumentFacts.
Import Js Fetch JsFacts Document Samples.

(** What the two handlers do to the slots the guards read. *)
Lemma upload_begin_flags (s s' : State) (out : option Request) :
  handleUpload_begin s = (s', out) ->
  isSending s' = isSending s
  /\ documentId s' = documentId s
  /\ messages s' = messages s
  /\ match out with
     | Some req => is_upload req = true /\ isUploading s' = true
     | None => isUploading s' = isUploading s
     end.
Proof.
  unfold handleUpload_begin.
  destruct (sourceType s);
    [destruct (pdfFile s) | destruct (txtFile s)
    | destruct (negb (truthy (trim (plainText s))))];
    intros H; inversion H; subst; repeat split; reflexivity.
Qed.

Lemma send_begin_flags (new_id : jsstring) (s s' : State) (out : option Request) :
  handleSendQuestion_begin new_id s = (s', out) ->
  isUploading s' = isUploading s
  /\ documentId s' = documentId s
  /\ match out with
     | Some req => is_chat req = true /\ isSending s' = true
     | None => isSending s' = isSending s /\ messages s' = messages s
     end.
Proof.
  unfold handleSendQuestion_begin.
  destruct (negb (hasActiveDocument s));
    [|destruct (negb (truthy (trim (question s))))];
    intros H; inversion H; subst; repeat split; reflexivity.
Qed.

Lemma filter_snoc (p : Request -> bool) (l : list Request) (req : Request) :
  filter p (l ++ [req]) = filter p l ++ (if p req then [req] else []).
Proof. rewrite filter_app. reflexivity. Qed.

Lemma chat_not_upload (req : Request) : is_chat req = true -> is_upload req = false.
Proof. unfold is_chat. destruct (is_upload req); [discriminate | reflexivity]. Qed.

Lemma upload_not_chat (req : Request) : is_upload req = true -> is_chat req = false.
Proof. unfold is_chat. intros ->. reflexivity. Qed.

(** Every event keeps each flag in step with the requests of its kind. *)
Lemma step_guarded (sys : System) (e : Event) : guarded sys -> guarded (step sys e).
Proof.
  intros [Hu Hc]. unfold guarded, uploading, chatting in *.
  destruct e as [v|f|f|v|v| |new_id|n r|n new_id r]; simpl;
    try (split; assumption).
  - (* ClickUpload *)
    unfold click_upload. destruct (isUploading (ui sys)) eqn:Eu.
    + rewrite Eu. split; assumption.
    + destruct (handleUpload_begin (ui sys)) as [s' out] eqn:Eb.
      destruct (upload_begin_flags _ _ _ Eb) as (Hs & _ & _ & Ho).
      unfold dispatch. simpl. destruct out as [req|]; simpl.
      * destruct Ho as [Hr Hi].
        rewrite !filter_snoc, Hr, (upload_not_chat _ Hr), !length_app, Hi, Hs, Hu.
        simpl. split; [reflexivity | lia].
      * rewrite Ho, Hs, Eu. split; assumption.
  - (* ClickSend *)
    unfold click_send. destruct (isSending (ui sys)) eqn:Es.
    + rewrite Es. split; assumption.
    + destruct (handleSendQuestion_begin new_id (ui sys)) as [s' out] eqn:Eb.
      destruct (send_begin_flags _ _ _ _ Eb) as (Hs & _ & Ho).
      unfold dispatch. simpl. destruct out as [req|]; simpl.
      * destruct Ho as [Hr Hi].
        rewrite !filter_snoc, Hr, (chat_not_upload _ Hr), !length_app, Hi, Hs, Hc.
        simpl. split; [lia | reflexivity].
      * destruct Ho as [Hi _]. rewrite Hi, Hs, Es. split; assumption.
  - (* SettleUpload *)
    destruct (nth_error (inflight sys) n) as [[form|q d]|] eqn:En;
      try (split; assumption).
    simpl.
    pose proof (filter_remove_nth_hit _ is_upload _ _ _ En eq_refl) as Hhit.
    rewrite (filter_remove_nth_miss _ is_chat _ _ _ En eq_refl).
    destruct (receive upload_fallback r); simpl;
      (split; [destruct (isUploading (ui sys)); lia | assumption]).
  - (* SettleChat *)
    destruct (nth_error (inflight sys) n) as [[form|q d]|] eqn:En;
      try (split; assumption).
    simpl.
    pose proof (filter_remove_nth_hit _ is_chat _ _ _ En eq_refl) as Hhit.
    rewrite (filter_remove_nth_miss _ is_upload _ _ _ En eq_refl).
    split; [assumption|].
    destruct (isSending (ui sys)); lia.
Qed.

Lemma run_guarded (events : list Event) (sys : System) :
  guarded sys -> guarded (run events sys).
Proof.
  revert sys. induction events as [|e rest IH]; intros sys H; simpl.
  - exact H.
  - apply IH, step_guarded, H.
Qed.

Lemma reachable_guarded (events : list Event) : guarded (run events start).
Proof. apply run_guarded. split; reflexivity. Qed.

(** The guard of the document page: in every reachable state at most one
    request of each kind is in flight; while one is, a click on the button of
    its kind changes nothing and dispatches nothing; while none is, the click
    runs the handler. *)
Lemma document_guard (events : list Event) :
  let sys := run events start in
  (List.length (uploading sys) <= 1)%nat
  /\ (List.length (chatting sys) <= 1)%nat
  /\ (uploading sys <> [] -> click_upload sys = sys)
  /\ (forall new_id, chatting sys <> [] -> click_send new_id sys = sys)
  /\ (uploading sys = [] ->
      click_upload sys = dispatch sys (handleUpload_begin (ui sys)))
  /\ (forall new_id, chatting sys = [] ->
      click_send new_id sys = dispatch sys (handleSendQuestion_begin new_id (ui sys))).
Proof.
  intros sys. destruct (reachable_guarded events) as [Hu Hc]. fold sys in Hu, Hc.
  unfold click_upload, click_send.
  repeat split.
  - rewrite Hu. destruct (isUploading (ui sys)); lia.
  - rewrite Hc. destruct (isSending (ui sys)); lia.
  - intros Hne. destruct (isUploading (ui sys)); [reflexivity|].
    destruct (uploading sys); [contradiction | discriminate].
  - intros new_id Hne. destruct (isSending (ui sys)); [reflexivity|].
    destruct (chatting sys); [contradiction | discriminate].
  - intros He. rewrite He in Hu. destruct (isUploading (ui sys)); [discriminate | reflexivity].
  - intros new_id He. rewrite He in Hc. destruct (isSending (ui sys)); [discriminate | reflexivity].
Qed.

(** The end-to-end scenario of the page. *)
Example conversation_transcript :
  documentId chatted = Some (lit "doc-1")
  /\ messages chatted =
       [mkMessage (lit "m1") user capital None;
        mkMessage (lit "m2") assistant (lit "Paris.") (Some [Some (lit "chunk-1")])].
Proof. split; reflexivity. Qed.

(** C4, as stated, fails on a 2xx response whose body has no
    [document_id]: the [try] block runs to its end, the page reports the
    document ready and empties the transcript, and [documentId], which held
    "doc-1", is left without a value. *)
Lemma upload_success_without_id :
  ok 200 = true
  /\ documentId chatted = Some (lit "doc-1")
  /\ documentId (handleUpload_resume no_id chatted) = None
  /\ hasActiveDocument (handleUpload_resume no_id chatted) = false
  /\ uploadStatus (handleUpload_resume no_id chatted)
       = lit "Document ready. Start chatting!"
  /\ messages (handleUpload_resume no_id chatted) = [].
Proof. repeat split. Qed.

(** C4, amended.  After a 2xx response from [/upload] whose body holds a
    [document_id], whatever the state before (first ingestion or
    re-ingestion over an identity and a transcript), [documentId] is that
    [document_id], not null, the document counts as active exactly when the
    id is a non-empty string, and the transcript is empty. *)
Theorem upload_success_replaces_identity :
  forall (s : State) (status : Z) (text : jsstring) (data : UploadData)
         (new_id : jsstring),
    (200 <= status <= 299)%Z ->
    document_id data = Some new_id ->
    documentId (handleUpload_resume (Response status text (BodyData data)) s)
      = Some new_id
    /\ documentId (handleUpload_resume (Response status text (BodyData data)) s)
         <> None
    /\ hasActiveDocument
         (handleUpload_resume (Response status text (BodyData data)) s)
       = truthy new_id
    /\ messages (handleUpload_resume (Response status text (BodyData data)) s) = [].
Proof.
  intros s status text data new_id Hs Hid. apply ok_range in Hs.
  unfold handleUpload_resume. rewrite (receive_ok _ upload_fallback status text data Hs).
  unfold hasActiveDocument. simpl. rewrite Hid.
  repeat split. discriminate.
Qed.

Lemma upload_success_replaces_identity_witness :
  (200 <= 201 <= 299)%Z
  /\ documentId chatted = Some (lit "doc-1")
  /\ List.length (messages chatted) = 2%nat
  /\ documentId (handleUpload_resume doc2 chatted) = Some (lit "doc-2")
  /\ documentId (handleUpload_resume doc2 chatted) <> None
  /\ hasActiveDocument (handleUpload_resume doc2 chatted) = true
  /\ messages (handleUpload_resume doc2 chatted) = [].
Proof.
  split; [lia|]. split; [reflexivity|]. split; [reflexivity|].
  apply (upload_success_replaces_identity chatted 201 []
           (mkUploadData (Some (lit "doc-2"))) (lit "doc-2")).
  - lia.
  - reflexivity.
Defined.

(** C5.  A click on the enabled upload button that ends in a failure, either
    because validation stops it before any request or because the request it
    dispatched made the [try] block throw (non-2xx response, rejected
    [fetch]), ends with the message in the error slot (for a validation
    failure, the message of the chosen tab) and an empty upload status;
    [documentId], the transcript and every other slot of the page are the
    ones before the click. *)
Theorem failed_upload_frame :
  forall (s : State),
    isUploading s = false ->
    (forall s', handleUpload_begin s = (s', None) ->
       error s' = Some match sourceType s with
                       | pdf => lit "Select a PDF file first."
                       | txt => lit "Select a TXT file first."
                       | text => lit "Paste some text before uploading."
                       end
       /\ uploadStatus s' = []
       /\ documentId s' = documentId s /\ messages s' = messages s
       /\ sourceType s' = sourceType s /\ pdfFile s' = pdfFile s
       /\ txtFile s' = txtFile s /\ plainText s' = plainText s
       /\ question s' = question s /\ chatStatus s' = chatStatus s
       /\ isUploading s' = isUploading s /\ isSending s' = isSending s
       /\ fileInputKey s' = fileInputKey s)
    /\ (forall s1 req r message,
          handleUpload_begin s = (s1, Some req) ->
          receive upload_fallback r = Threw message ->
          error (handleUpload_resume r s1) = Some message
          /\ uploadStatus (handleUpload_resume r s1) = []
          /\ documentId (handleUpload_resume r s1) = documentId s
          /\ messages (handleUpload_resume r s1) = messages s
          /\ sourceType (handleUpload_resume r s1) = sourceType s
          /\ pdfFile (handleUpload_resume r s1) = pdfFile s
          /\ txtFile (handleUpload_resume r s1) = txtFile s
          /\ plainText (handleUpload_resume r s1) = plainText s
          /\ question (handleUpload_resume r s1) = question s
          /\ chatStatus (handleUpload_resume r s1) = chatStatus s
          /\ isUploading (handleUpload_resume r s1) = isUploading s
          /\ isSending (handleUpload_resume r s1) = isSending s
          /\ fileInputKey (handleUpload_resume r s1) = fileInputKey s).
Proof.
  intros s Hidle. split.
  - intros s' H. unfold handleUpload_begin in H.
    destruct s as [st pf tf pt di ms q us cs er iu isd fk]; simpl in *.
    destruct st;
      [destruct pf | destruct tf | destruct (negb (truthy (trim pt)))];
      inversion H; subst; repeat split.
  - intros s1 req r message H Hr. unfold handleUpload_resume. rewrite Hr.
    unfold handleUpload_begin in H.
    destruct s as [st pf tf pt di ms q us cs er iu isd fk]; simpl in *. subst iu.
    destruct st;
      [destruct pf | destruct tf | destruct (negb (truthy (trim pt)))];
      inversion H; subst; repeat split.
Qed.

Lemma failed_upload_frame_witness :
  isUploading chatted = false
  /\ (error (fst (handleUpload_begin chatted))
        = Some (lit "Paste some text before uploading.")
      /\ uploadStatus chatted = lit "Document ready. Start chatting!"
      /\ uploadStatus (fst (handleUpload_begin chatted)) = []
      /\ documentId (fst (handleUpload_begin chatted)) = Some (lit "doc-1")
      /\ List.length (messages (fst (handleUpload_begin chatted))) = 2%nat)
  /\ (let s := setPlainText (lit "Berlin") chatted in
      let s1 := fst (handleUpload_begin s) in
      error (handleUpload_resume Samples.index_missing s1) = Some (lit "index missing")
      /\ uploadStatus (handleUpload_resume Samples.index_missing s1) = []
      /\ documentId (handleUpload_resume Samples.index_missing s1) = Some (lit "doc-1")
      /\ List.length (messages (handleUpload_resume Samples.index_missing s1)) = 2%nat).
Proof.
  split; [reflexivity|]. split.
  - destruct (proj1 (failed_upload_frame chatted eq_refl)
                (fst (handleUpload_begin chatted)) eq_refl)
      as (H1 & H2 & H3 & H4 & _).
    split; [exact H1|]. split; [reflexivity|]. split; [exact H2|].
    split; [rewrite H3|rewrite H4]; reflexivity.
  - destruct (proj2 (failed_upload_frame (setPlainText (lit "Berlin") chatted) eq_refl)
                (fst (handleUpload_begin (setPlainText (lit "Berlin") chatted)))
                (Upload (plain_text (lit "Berlin")))
                Samples.index_missing (lit "index missing") eq_refl eq_refl)
      as (H1 & H2 & H3 & H4 & _).
    split; [exact H1|]. split; [exact H2|].
    split; [rewrite H3|rewrite H4]; reflexivity.
Defined.

End DocumentFacts.

(** ** The two variants side by side *)

Module Variants.
Import Js Fetch JsFacts Samples.

Lemma resume_chat_threw (new_id : jsstring) (r : Reply Document.ChatData)
  (s : Document.State) (message : jsstring) :
  receive Document.chat_fallback r = Threw message ->
  Document.handleSendQuestion_resume new_id r s =
    Document.setIsSending false
      (Document.setChatStatus []
         (Document.setMessages
            (fun prev => prev ++ [Document.mkMessage new_id Document.assistant
                                    (Document.warning ++ message) None]) s)).
Proof. intros H. unfold Document.handleSendQuestion_resume. rewrite H. reflexivity. Qed.

Lemma send_begin_valid (new_id : jsstring) (s : Document.State) :
  Document.hasActiveDocument s = true ->
  truthy (trim (Document.question s)) = true ->
  Document.handleSendQuestion_begin new_id s =
    (Document.setQuestion []
       (Document.setMessages
          (fun prev => prev ++ [Document.mkMessage new_id Document.user
                                  (trim (Document.question s)) None])
          (Document.setIsSending true
             (Document.setChatStatus (lit "Thinking" ++ ellipsis)
                (Document.setError None s)))),
     Some (Document.Chat (trim (Document.question s)) (Document.documentId s))).
Proof.
  intros Hd Hq. unfold Document.handleSendQuestion_begin. rewrite Hd, Hq. reflexivity.
Qed.

(** C2.  A query whose call throws (non-2xx response, rejected [fetch]):
    in the document variant the transcript after the whole query is the
    transcript before it plus the user turn and an assistant turn whose
    content is the warning sign followed by the error message, two turns
    more, and the error slot stays empty; in the session variant, which has
    no transcript, the answer and the sources are emptied and the message
    goes to the error banner. *)
Theorem failed_query_asymmetry :
  forall (id1 id2 : jsstring) (d : Document.State) (rd : Reply Document.ChatData)
         (md : jsstring) (v : Session.State) (rs : Reply Session.AskData)
         (ms : jsstring),
    Document.hasActiveDocument d = true ->
    truthy (trim (Document.question d)) = true ->
    receive Document.chat_fallback rd = Threw md ->
    Session.callBackend rs = Threw ms ->
    let d2 := Document.handleSendQuestion_resume id2 rd
                (fst (Document.handleSendQuestion_begin id1 d)) in
    let v2 := Session.askVideoQuestion_resume rs v in
    Document.messages d2 =
      Document.messages d ++
        [Document.mkMessage id1 Document.user (trim (Document.question d)) None;
         Document.mkMessage id2 Document.assistant (Document.warning ++ md) None]
    /\ List.length (Document.messages d2) = (List.length (Document.messages d) + 2)%nat
    /\ Document.error d2 = None
    /\ Session.answer v2 = []
    /\ Session.sources v2 = []
    /\ Session.status v2 = []
    /\ Session.error v2 = ms.
Proof.
  intros id1 id2 d rd md v rs ms Hd Hq Hrd Hrs d2 v2.
  assert (Hm : Document.messages d2 =
               Document.messages d ++
                 [Document.mkMessage id1 Document.user (trim (Document.question d)) None;
                  Document.mkMessage id2 Document.assistant (Document.warning ++ md) None]).
  { unfold d2. rewrite (send_begin_valid id1 d Hd Hq), (resume_chat_threw id2 rd _ md Hrd).
    simpl. rewrite <- app_assoc. reflexivity. }
  split; [exact Hm|]. split.
  { rewrite Hm, length_app. reflexivity. }
  split.
  { unfold d2. rewrite (send_begin_valid id1 d Hd Hq), (resume_chat_threw id2 rd _ md Hrd).
    reflexivity. }
  unfold v2. rewrite (SessionFacts.resume_ask_threw rs v ms Hrs).
  repeat split.
Qed.

Lemma failed_query_asymmetry_witness :
  let d := Document.setQuestion (lit "  What is X?  ") chatted in
  let d2 := Document.handleSendQuestion_resume (lit "m4") index_missing
              (fst (Document.handleSendQuestion_begin (lit "m3") d)) in
  let v := Session.askVideoQuestion_resume answered Session.initial in
  let v2 := Session.askVideoQuestion_resume index_missing v in
  Document.messages d2 =
    Document.messages d ++
      [Document.mkMessage (lit "m3") Document.user (lit "What is X?") None;
       Document.mkMessage (lit "m4") Document.assistant
         (Document.warning ++ lit "index missing") None]
  /\ List.length (Document.messages d2) = 4%nat
  /\ Document.error d2 = None
  /\ Session.answer v2 = []
  /\ Session.sources v2 = []
  /\ Session.status v2 = []
  /\ Session.error v2 = lit "index missing".
Proof.
  exact (failed_query_asymmetry (lit "m3") (lit "m4")
           (Document.setQuestion (lit "  What is X?  ") chatted)
           index_missing (lit "index missing")
           (Session.askVideoQuestion_resume answered Session.initial)
           index_missing (lit "index missing")
           eq_refl eq_refl eq_refl eq_refl).
Defined.

(** A failed reply appends one turn to whatever the transcript is when it
    arrives. *)
Lemma failed_chat_appends_one (new_id : jsstring) (r : Reply Document.ChatData)
  (s : Document.State) (message : jsstring) :
  receive Document.chat_fallback r = Threw message ->
  Document.messages (Document.handleSendQuestion_resume new_id r s) =
    Document.messages s ++
      [Document.mkMessage new_id Document.assistant (Document.warning ++ message) None].
Proof. intros H. rewrite (resume_chat_threw new_id r s message H). reflexivity. Qed.

(** C3, as stated, fails on the session variant: [askVideoQuestion] tests
    and sends [question] as typed.  A padded question is transmitted with its
    padding, and a question of blanks only is transmitted too. *)
Lemma session_sends_question_untrimmed :
  let padded := Session.setQuestion (lit "  What is X?  ")
                  (Session.setYoutubeUrl url Session.initial) in
  let blank := Session.setQuestion (lit "   ")
                 (Session.setYoutubeUrl url Session.initial) in
  snd (Session.askVideoQuestion_begin padded)
    = Some (Session.Ask url (lit "  What is X?  "))
  /\ snd (Session.askVideoQuestion_begin padded)
       <> Some (Session.Ask url (trim (Session.question padded)))
  /\ trim (Session.question blank) = []
  /\ snd (Session.askVideoQuestion_begin blank) = Some (Session.Ask url (lit "   ")).
Proof.
  repeat split; try reflexivity. intros H. discriminate H.
Qed.

(** C3, amended.  Document variant: a request is dispatched exactly when a
    document is active and the trimmed question is non-empty; it carries the
    trimmed question, and the user turn, whose content is the trimmed
    question, is already in the transcript of the state in which the request
    is dispatched; otherwise nothing is dispatched and the transcript is
    untouched.  Session variant: a request is dispatched exactly when the URL
    and the question are non-empty strings, and it carries both as typed. *)
Theorem question_trimming_by_variant :
  forall (new_id : jsstring) (d : Document.State) (v : Session.State),
    snd (Document.handleSendQuestion_begin new_id d) =
      (if Document.hasActiveDocument d && truthy (trim (Document.question d))
       then Some (Document.Chat (trim (Document.question d)) (Document.documentId d))
       else None)
    /\ Document.messages (fst (Document.handleSendQuestion_begin new_id d)) =
         (if Document.hasActiveDocument d && truthy (trim (Document.question d))
          then Document.messages d ++
                 [Document.mkMessage new_id Document.user
                    (trim (Document.question d)) None]
          else Document.messages d)
    /\ snd (Session.askVideoQuestion_begin v) =
         (if truthy (Session.youtubeUrl v) && truthy (Session.question v)
          then Some (Session.Ask (Session.youtubeUrl v) (Session.question v))
          else None).
Proof.
  intros new_id d v.
  unfold Document.handleSendQuestion_begin, Session.askVideoQuestion_begin.
  destruct (Document.hasActiveDocument d), (truthy (trim (Document.question d))),
    (truthy (Session.youtubeUrl v)), (truthy (Session.question v));
    repeat split; reflexivity.
Qed.

(** What the document page sends and stores needs no further trimming. *)
Lemma sent_question_is_trimmed (new_id : jsstring) (d d' : Document.State)
  (q : jsstring) (doc : option jsstring) :
  Document.handleSendQuestion_begin new_id d = (d', Some (Document.Chat q doc)) ->
  trim q = q /\ q <> [].
Proof.
  unfold Document.handleSendQuestion_begin.
  destruct (negb (Document.hasActiveDocument d)); [discriminate|].
  destruct (truthy (trim (Document.question d))) eqn:E; simpl; [|discriminate].
  intros H. inversion H; subst. split; [apply trim_idem|].
  intros Hq. rewrite Hq in E. discriminate.
Qed.

(** C6.  A response whose status is outside 200-299 makes every call site
    throw, whatever the body would parse to; the message is the body text if
    that is non-empty and the fallback of the call site otherwise.  The two
    session calls and the upload put the message in the error slot (and
    neither the ready status, nor an answer, nor a new identity is set); the
    chat puts it in the assistant turn it appends, after the warning sign. *)
Theorem non_2xx_error_message :
  forall (status : Z) (text : jsstring),
    (status < 200 \/ 299 < status)%Z ->
    forall (jp : Body unit) (ja : Body Session.AskData)
           (ju : Body Document.UploadData) (jc : Body Document.ChatData)
           (v : Session.State) (d : Document.State) (new_id : jsstring),
      let shown fb := if truthy text then text else fb in
      let v1 := Session.prepareVideo_resume (Response status text jp) v in
      let v2 := Session.askVideoQuestion_resume (Response status text ja) v in
      let d1 := Document.handleUpload_resume (Response status text ju) d in
      let d2 := Document.handleSendQuestion_resume new_id (Response status text jc) d in
      (Session.error v1 = shown (lit "Request failed.") /\ Session.status v1 = [])
      /\ (Session.error v2 = shown (lit "Request failed.") /\ Session.answer v2 = [])
      /\ (Document.error d1 = Some (shown (lit "Upload failed."))
          /\ Document.documentId d1 = Document.documentId d)
      /\ Document.messages d2 =
           Document.messages d ++
             [Document.mkMessage new_id Document.assistant
                (Document.warning ++ shown (lit "Chat request failed.")) None].
Proof.
  intros status text Hs jp ja ju jc v d new_id shown v1 v2 d1 d2.
  apply not_ok_range in Hs.
  unfold v1, v2, d1, d2, Session.prepareVideo_resume, Session.askVideoQuestion_resume,
    Document.handleUpload_resume, Document.handleSendQuestion_resume,
    Session.callBackend.
  rewrite !(receive_not_ok _ _ status text _ Hs).
  repeat split.
Qed.

Lemma non_2xx_error_message_witness :
  (500 < 200 \/ 299 < 500)%Z
  /\ Session.error (Session.prepareVideo_resume
                      (Response 500 [] (BodyData tt)) Session.initial)
       = lit "Request failed."
  /\ Document.error (Document.handleUpload_resume
                       (Response 500 [] (BodyData (Document.mkUploadData (Some (lit "doc-9")))))
                       chatted)
       = Some (lit "Upload failed.")
  /\ Document.documentId (Document.handleUpload_resume
                            (Response 500 [] (BodyData (Document.mkUploadData (Some (lit "doc-9")))))
                            chatted)
       = Some (lit "doc-1").
Proof.
  split; [lia|].
  pose proof (non_2xx_error_message 500 [] (or_intror eq_refl)
                (BodyData tt) (BodyThrows [])
                (BodyData (Document.mkUploadData (Some (lit "doc-9")))) (BodyThrows [])
                Session.initial chatted []) as H.
  cbv zeta in H. destruct H as ((H1 & _) & _ & (H3 & H4) & _).
  split; [exact H1|]. split; [exact H3|]. rewrite H4. reflexivity.
Defined.

(** C9, as stated, fails on the session variant: the page maps a falsy
    source to the text "Transcript chunk" instead of leaving it out. *)
Lemma session_renders_falsy_sources :
  let shown := Session.askVideoQuestion_resume answered Session.initial in
  Session.sources shown = [Some []; Some (lit "Ch.1"); None]
  /\ Session.render_sources shown
       = Some [lit "Transcript chunk"; lit "Ch.1"; lit "Transcript chunk"]
  /\ Session.render_sources shown <> Some [lit "Ch.1"].
Proof.
  repeat split; try reflexivity. intros H. discriminate H.
Qed.

Lemma filter_truthy_texts (l : list entry) :
  Forall (fun t => truthy t = true) (map text_of (filter truthy_entry l)).
Proof.
  induction l as [|e rest IH]; simpl; [constructor|].
  destruct e as [t|]; simpl; [|exact IH].
  destruct (truthy t) eqn:E; [constructor; assumption | exact IH].
Qed.

(** C9, amended.  After a successful query response, both variants store
    the sources as the backend sent them ([[]] when the field is absent).
    The document variant renders the truthy ones only, in order, and no list
    at all when none is truthy; the session variant renders one item per
    stored source, a falsy one as "Transcript chunk", and no list at all when
    there is no source or the answer is empty. *)
Theorem sources_stored_raw_rendered_by_variant :
  forall (new_id : jsstring) (d : Document.State) (rd : Reply Document.ChatData)
         (dd : Document.ChatData) (v : Session.State) (rs : Reply Session.AskData)
         (ds : Session.AskData),
    receive Document.chat_fallback rd = Returned dd ->
    Session.callBackend rs = Returned ds ->
    let raw_d := nullish (Document.data_sources dd) [] in
    let raw_s := nullish (Session.srcs ds) [] in
    let v' := Session.askVideoQuestion_resume rs v in
    (exists m,
        Document.messages (Document.handleSendQuestion_resume new_id rd d)
          = Document.messages d ++ [m]
        /\ Document.msg_sources m = Some raw_d
        /\ Document.render_sources m =
             match filter truthy_entry raw_d with
             | [] => None
             | kept => Some (map text_of kept)
             end
        /\ Forall (fun t => truthy t = true) (map text_of (filter truthy_entry raw_d)))
    /\ Session.sources v' = raw_s
    /\ Session.render_sources v' =
         match raw_s with
         | [] => None
         | _ :: _ =>
             if truthy (nullish (Session.ans ds) []) then
               Some (map (fun src => or_else (text_of src) (lit "Transcript chunk")) raw_s)
             else None
         end.
Proof.
  intros new_id d rd dd v rs ds Hd Hs raw_d raw_s v'. split.
  - eexists. unfold Document.handleSendQuestion_resume. rewrite Hd. simpl.
    split; [reflexivity|]. split; [reflexivity|]. split.
    + unfold Document.render_sources. simpl. fold raw_d.
      destruct (filter truthy_entry raw_d); reflexivity.
    + apply filter_truthy_texts.
  - unfold v'. rewrite (SessionFacts.resume_ask_returned rs v ds Hs).
    unfold Session.render_sources. simpl. fold raw_s. split; [reflexivity|].
    destruct raw_s; simpl.
    + rewrite andb_false_r. reflexivity.
    + rewrite andb_true_r. reflexivity.
Qed.

Lemma sources_stored_raw_rendered_by_variant_witness :
  let mixed := Response 200 []
                 (BodyData (Document.mkChatData (Some (lit "Paris."))
                              (Some [Some []; Some (lit "Ch.1"); None]))) in
  (exists m,
      Document.messages (Document.handleSendQuestion_resume (lit "m3") mixed chatted)
        = Document.messages chatted ++ [m]
      /\ Document.msg_sources m = Some [Some []; Some (lit "Ch.1"); None]
      /\ Document.render_sources m = Some [lit "Ch.1"])
  /\ Session.sources (Session.askVideoQuestion_resume answered Session.initial)
       = [Some []; Some (lit "Ch.1"); None].
Proof.
  intros mixed.
  destruct (sources_stored_raw_rendered_by_variant (lit "m3") chatted mixed
              (Document.mkChatData (Some (lit "Paris."))
                 (Some [Some []; Some (lit "Ch.1"); None]))
              Session.initial answered
              (Session.mkAskData (Some (lit "Paris."))
                 (Some [Some []; Some (lit "Ch.1"); None]))
              eq_refl eq_refl) as ((m & H1 & H2 & H3 & _) & H4 & _).
  split; [|exact H4].
  exists m. split; [exact H1|]. split; [exact H2|]. exact H3.
Defined.

(** No sources from the backend, nothing rendered, in either variant. *)
Example zero_sources_render_nothing :
  Document.render_sources
    (Document.mkMessage (lit "m") Document.assistant (lit "Paris.") (Some [])) = None
  /\ Session.render_sources
       (Session.askVideoQuestion_resume
          (Response 200 [] (BodyData (Session.mkAskData (Some (lit "Paris.")) None)))
          Session.initial) = None.
Proof. split; reflexivity. Qed.

End Variants.

(** ** The configured backend URL *)

Module ConfigFacts.
Import Js Config.

Lemma strip_snoc (base : jsstring) (c : code_unit) :
  strip_trailing_slash (base ++ [c]) = if (c =? slash)%N then base else base ++ [c].
Proof.
  induction base as [|b rest IH].
  - simpl. destruct (c =? slash)%N; reflexivity.
  - change ((b :: rest) ++ [c]) with (b :: (rest ++ [c])).
    simpl strip_trailing_slash at 1.
    destruct (rest ++ [c]) as [|x xs] eqn:E.
    + destruct rest; discriminate.
    + rewrite IH. destruct (c =? slash)%N; reflexivity.
Qed.

Lemma ends_with_slash_snoc (base : jsstring) (c : code_unit) :
  ends_with_slash (base ++ [c]) = (c =? slash)%N.
Proof. unfold ends_with_slash. rewrite rev_unit. reflexivity. Qed.

Lemma strip_no_slash (s : jsstring) :
  ends_with_slash s = false -> strip_trailing_slash s = s.
Proof.
  destruct s as [|c rest] using rev_ind; [reflexivity|].
  rewrite ends_with_slash_snoc, strip_snoc. intros ->. reflexivity.
Qed.

(** One slash at the end of the configured URL makes no difference: the
    value with it and the value without it give the same [BACKEND_URL], the
    value without it, and so the same URL for every endpoint. *)
Theorem trailing_slash_irrelevant :
  forall (base path : jsstring),
    ends_with_slash base = false ->
    BACKEND_URL (Some (base ++ [slash])) = base
    /\ BACKEND_URL (Some base) = base
    /\ endpoint (Some (base ++ [slash])) path = endpoint (Some base) path.
Proof.
  intros base path H.
  assert (H1 : BACKEND_URL (Some (base ++ [slash])) = base).
  { unfold BACKEND_URL. simpl. rewrite strip_snoc. reflexivity. }
  assert (H2 : BACKEND_URL (Some base) = base).
  { unfold BACKEND_URL. simpl. apply strip_no_slash, H. }
  unfold endpoint. rewrite H1, H2. repeat split.
Qed.

Lemma trailing_slash_irrelevant_witness :
  ends_with_slash (lit "https://api.example.com") = false
  /\ BACKEND_URL (Some (lit "https://api.example.com/")) = lit "https://api.example.com"
  /\ BACKEND_URL (Some (lit "https://api.example.com")) = lit "https://api.example.com"
  /\ endpoint (Some (lit "https://api.example.com/")) (lit "/chat")
       = endpoint (Some (lit "https://api.example.com")) (lit "/chat").
Proof.
  split; [reflexivity|].
  apply (trailing_slash_irrelevant (lit "https://api.example.com") (lit "/chat")).
  reflexivity.
Defined.

(** Only one slash is removed: [BACKEND_URL] still ends with a slash exactly
    when the variable is set to a value that ends with two. *)
Theorem backend_url_ends_with_slash_iff :
  forall (env : option jsstring),
    ends_with_slash (BACKEND_URL env) = true
    <-> exists base, env = Some (base ++ [slash; slash]).
Proof.
  intros env. split.
  - destruct env as [s|]; [|discriminate].
    unfold BACKEND_URL. simpl.
    destruct s as [|c base _] using rev_ind; [discriminate|].
    rewrite strip_snoc. destruct (c =? slash)%N eqn:Ec.
    + apply N.eqb_eq in Ec. subst c.
      destruct base as [|d base' _] using rev_ind; [discriminate|].
      rewrite ends_with_slash_snoc. intros Hd. apply N.eqb_eq in Hd. subst d.
      exists base'. rewrite <- app_assoc. reflexivity.
    + rewrite ends_with_slash_snoc, Ec. discriminate.
  - intros [base ->]. unfold BACKEND_URL. simpl.
    change (base ++ [slash; slash]) with (base ++ [slash] ++ [slash]).
    rewrite app_assoc, strip_snoc, N.eqb_refl. apply ends_with_slash_snoc.
Qed.

(** [??] replaces a missing value only: a variable set to the empty string
    gives an empty base, and the pages then fetch the bare path. *)
Example empty_backend_url :
  BACKEND_URL (Some []) = []
  /\ endpoint (Some []) (lit "/upload") = lit "/upload"
  /\ endpoint None (lit "/upload") = lit "http://127.0.0.1:8000/upload".
Proof. repeat split. Qed.

End ConfigFacts.

(** ** Invariants of the session page *)

Module SessionInvFacts.
Import Js Fetch JsFacts Session SessionInv Samples.

Lemma forallb_remove_nth (A : Type) (p : A -> bool) (l : list A) (n : nat) :
  forallb p l = true -> forallb p (remove_nth n l) = true.
Proof.
  revert n. induction l as [|x rest IH]; intros [|k] H; simpl in *;
    try reflexivity; apply andb_true_iff in H; destruct H as [Hx Hr].
  - exact Hr.
  - rewrite Hx. exact (IH k Hr).
Qed.

Lemma prepare_begin_cases (s : State) :
  (truthy (youtubeUrl s) = false
   /\ prepareVideo_begin s = (setError (lit "Paste a YouTube URL first.") s, None))
  \/ (truthy (youtubeUrl s) = true
      /\ prepareVideo_begin s =
           (setError [] (setStatus (lit "Indexing video" ++ ellipsis)
                           (setLoading (Some index) s)),
            Some (Prepare (youtubeUrl s)))).
Proof.
  unfold prepareVideo_begin. destruct (truthy (youtubeUrl s)); [right | left];
    split; reflexivity.
Qed.

Lemma ask_begin_cases (s : State) :
  (truthy (youtubeUrl s) && truthy (question s) = false
   /\ askVideoQuestion_begin s =
        (setError (lit "Enter both the URL and a question.") s, None))
  \/ (truthy (youtubeUrl s) && truthy (question s) = true
      /\ askVideoQuestion_begin s =
           (setError [] (setStatus (lit "Thinking" ++ ellipsis)
                           (setLoading (Some ask) s)),
            Some (Ask (youtubeUrl s) (question s)))).
Proof.
  unfold askVideoQuestion_begin.
  destruct (truthy (youtubeUrl s)), (truthy (question s)); simpl;
    [right | left | left | left]; split; reflexivity.
Qed.

Lemma step_slot_backed (sys : System) (e : Event) :
  slot_backed sys = true -> slot_backed (step sys e) = true.
Proof.
  intros H. destruct e as [v|v| | |n r|n r]; simpl.
  - exact H.
  - exact H.
  - unfold click_prepare. destruct (prepare_disabled (ui sys)); [exact H|].
    destruct (prepare_begin_cases (ui sys)) as [[_ ->]|[_ ->]]; unfold dispatch; simpl.
    + exact H.
    + unfold slot_backed. simpl. rewrite existsb_app. simpl. apply orb_true_r.
  - unfold click_ask. destruct (ask_disabled (ui sys)); [exact H|].
    destruct (ask_begin_cases (ui sys)) as [[_ ->]|[_ ->]]; unfold dispatch; simpl.
    + exact H.
    + unfold slot_backed. simpl. rewrite existsb_app. simpl. apply orb_true_r.
  - destruct (nth_error (inflight sys) n) as [[u|u q]|]; try exact H. reflexivity.
  - destruct (nth_error (inflight sys) n) as [[u|u q]|]; try exact H. reflexivity.
Qed.

Lemma session_step_validated (sys : System) (e : Event) :
  forallb validated (inflight sys) = true ->
  forallb validated (inflight (step sys e)) = true.
Proof.
  intros H. destruct e as [v|v| | |n r|n r]; simpl.
  - exact H.
  - exact H.
  - unfold click_prepare. destruct (prepare_disabled (ui sys)); [exact H|].
    destruct (prepare_begin_cases (ui sys)) as [[_ ->]|[Hu ->]]; unfold dispatch; simpl.
    + exact H.
    + rewrite forallb_app, H. simpl. rewrite Hu. reflexivity.
  - unfold click_ask. destruct (ask_disabled (ui sys)); [exact H|].
    destruct (ask_begin_cases (ui sys)) as [[_ ->]|[Hu ->]]; unfold dispatch; simpl.
    + exact H.
    + rewrite forallb_app, H. simpl. rewrite Hu. reflexivity.
  - destruct (nth_error (inflight sys) n) as [[u|u q]|]; try exact H.
    simpl. apply forallb_remove_nth, H.
  - destruct (nth_error (inflight sys) n) as [[u|u q]|]; try exact H.
    simpl. apply forallb_remove_nth, H.
Qed.

Lemma session_run_invariant (P : System -> Prop) :
  (forall sys e, P sys -> P (step sys e)) ->
  forall events sys, P sys -> P (run events sys).
Proof.
  intros Hstep events. induction events as [|e rest IH]; intros sys H; simpl.
  - exact H.
  - apply IH, Hstep, H.
Qed.

(** Whatever the user and the network do, the [loading] slot names a kind
    only while a request of that kind is in flight; so once nothing is in
    flight the slot is null and both buttons are enabled: no sequence of
    events leaves a button disabled for good. *)
Theorem loading_slot_backed :
  forall (events : list Event),
    slot_backed (run events start) = true
    /\ match inflight (run events start) with
       | [] =>
           loading (ui (run events start)) = None
           /\ prepare_disabled (ui (run events start)) = false
           /\ ask_disabled (ui (run events start)) = false
       | _ :: _ => True
       end.
Proof.
  intros events.
  assert (H : slot_backed (run events start) = true).
  { apply (session_run_invariant (fun sys => slot_backed sys = true)).
    - exact step_slot_backed.
    - reflexivity. }
  split; [exact H|].
  unfold slot_backed, prepare_disabled, ask_disabled in *.
  destruct (inflight (run events start)); [|exact I].
  destruct (loading (ui (run events start))) as [[|]|]; try discriminate.
  repeat split.
Qed.

(** No request leaves the session page without passing validation: in every
    reachable state each request in flight carries a non-empty URL, and each
    [/ask] a non-empty question as well. *)
Theorem session_requests_validated :
  forall (events : list Event),
    forallb validated (inflight (run events start)) = true.
Proof.
  intros events.
  apply (session_run_invariant (fun sys => forallb validated (inflight sys) = true)).
  - exact session_step_validated.
  - reflexivity.
Qed.

(** The session page never edits what the user typed: a click or a settled
    request leaves the URL field and the question field as they are (the
    question stays in the box after it was asked), and the Prepare handler
    leaves the displayed answer and sources as they are too. *)
Theorem session_handlers_keep_inputs :
  forall (sys : System) (e : Event),
    match e with
    | ChangeUrl _ | ChangeQuestion _ => True
    | ClickPrepare | SettlePrepare _ _ =>
        youtubeUrl (ui (step sys e)) = youtubeUrl (ui sys)
        /\ question (ui (step sys e)) = question (ui sys)
        /\ answer (ui (step sys e)) = answer (ui sys)
        /\ sources (ui (step sys e)) = sources (ui sys)
    | ClickAsk | SettleAsk _ _ =>
        youtubeUrl (ui (step sys e)) = youtubeUrl (ui sys)
        /\ question (ui (step sys e)) = question (ui sys)
    end.
Proof.
  intros sys e. destruct e as [v|v| | |n r|n r]; simpl; try exact I.
  - unfold click_prepare. destruct (prepare_disabled (ui sys)); [repeat split|].
    destruct (prepare_begin_cases (ui sys)) as [[_ ->]|[_ ->]]; repeat split.
  - unfold click_ask. destruct (ask_disabled (ui sys)); [repeat split|].
    destruct (ask_begin_cases (ui sys)) as [[_ ->]|[_ ->]]; repeat split.
  - destruct (nth_error (inflight sys) n) as [[u|u q]|]; try (repeat split; fail).
    simpl. unfold prepareVideo_resume. destruct (callBackend r); repeat split.
  - destruct (nth_error (inflight sys) n) as [[u|u q]|]; try (repeat split; fail).
    simpl. unfold askVideoQuestion_resume. destruct (callBackend r); repeat split.
Qed.

End SessionInvFacts.

(** ** Invariants of the document page *)

Module DocumentInvFacts.
Import Js Fetch JsFacts Document DocumentInv Samples.

Lemma truthy_nonempty (t : jsstring) : truthy t = true <-> t <> [].
Proof. destruct t; simpl; split; congruence. Qed.

Lemma Forall_remove_nth (A : Type) (P : A -> Prop) (l : list A) (n : nat) :
  Forall P l -> Forall P (remove_nth n l).
Proof.
  intros H. revert n. induction H as [|x rest Hx Hr IH]; intros [|k]; simpl;
    try constructor; auto.
Qed.

Lemma document_run_invariant (P : System -> Prop) :
  (forall sys e, P sys -> P (step sys e)) ->
  forall events sys, P sys -> P (run events sys).
Proof.
  intros Hstep events. induction events as [|e rest IH]; intros sys H; simpl.
  - exact H.
  - apply IH, Hstep, H.
Qed.

(** The two outcomes of the part of [handleUpload] that runs in the click. *)
Lemma upload_begin_cases (s : State) :
  (exists message,
      handleUpload_begin s =
        (setError (Some message) (setUploadStatus [] (setError None s)), None))
  \/ (exists form,
         validated (Upload form)
         /\ handleUpload_begin s =
              (setUploadStatus uploading_text
                 (setIsUploading true (setUploadStatus [] (setError None s))),
               Some (Upload form))).
Proof.
  unfold handleUpload_begin.
  destruct (sourceType s).
  - destruct (pdfFile s) as [f|]; [right; exists (pdf_file f) | left; eexists];
      simpl; auto.
  - destruct (txtFile s) as [f|]; [right; exists (txt_file f) | left; eexists];
      simpl; auto.
  - destruct (truthy (trim (plainText s))) eqn:E; simpl.
    + right. exists (plain_text (trim (plainText s))). simpl.
      split; [|reflexivity]. split; [apply truthy_nonempty, E | apply trim_idem].
    + left. eexists. reflexivity.
Qed.

(** The two outcomes of the part of [handleSendQuestion] that runs in the click. *)
Lemma send_begin_cases (new_id : jsstring) (s : State) :
  (exists message,
      handleSendQuestion_begin new_id s = (setError (Some message) s, None))
  \/ (hasActiveDocument s = true
      /\ truthy (trim (question s)) = true
      /\ handleSendQuestion_begin new_id s =
           (setQuestion []
              (setMessages
                 (fun prev => prev ++ [mkMessage new_id user (trim (question s)) None])
                 (setIsSending true (setChatStatus thinking_text (setError None s)))),
            Some (Chat (trim (question s)) (documentId s)))).
Proof.
  unfold handleSendQuestion_begin.
  destruct (hasActiveDocument s); simpl; [|left; eexists; reflexivity].
  destruct (truthy (trim (question s))); simpl; [|left; eexists; reflexivity].
  right. repeat split.
Qed.

(** What [handleSendQuestion] does when its request settles: one assistant
    turn, never an empty one. *)
Lemma send_resume_turn (new_id : jsstring) (r : Reply ChatData) (s : State) :
  exists m,
    role m = assistant /\ content m <> []
    /\ handleSendQuestion_resume new_id r s =
         setIsSending false
           (setChatStatus [] (setMessages (fun prev => prev ++ [m]) s)).
Proof.
  unfold handleSendQuestion_resume. eexists. split; [|split; [|reflexivity]].
  - destruct (receive chat_fallback r); reflexivity.
  - destruct (receive chat_fallback r) as [message|data]; simpl; [discriminate|].
    unfold or_else.
    destruct (truthy match data_answer data with
                     | Some a => trim a
                     | None => []
                     end) eqn:E.
    + apply truthy_nonempty, E.
    + discriminate.
Qed.

Lemma document_step_validated (sys : System) (e : Event) :
  Forall validated (inflight sys) -> Forall validated (inflight (step sys e)).
Proof.
  intros H. destruct e as [v|f|f|v|v| |new_id|n r|n new_id r]; simpl; try exact H.
  - unfold click_upload. destruct (isUploading (ui sys)); [exact H|].
    destruct (upload_begin_cases (ui sys)) as [[m ->]|[form [Hv ->]]];
      unfold dispatch; simpl; [exact H|].
    apply Forall_app. split; [exact H | constructor; [exact Hv | constructor]].
  - unfold click_send. destruct (isSending (ui sys)); [exact H|].
    destruct (send_begin_cases new_id (ui sys)) as [[m ->]|(Hd & Hq & ->)];
      unfold dispatch; simpl; [exact H|].
    apply Forall_app. split; [exact H|]. constructor; [|constructor].
    simpl. split; [apply truthy_nonempty, Hq|]. split; [apply trim_idem | exact Hd].
  - destruct (nth_error (inflight sys) n) as [[form|q d]|]; try exact H.
    simpl. apply Forall_remove_nth, H.
  - destruct (nth_error (inflight sys) n) as [[form|q d]|]; try exact H.
    simpl. apply Forall_remove_nth, H.
Qed.

(** No request leaves the document page without passing validation: in
    every reachable state each [/chat] in flight carries a non-empty question
    with no blank at either end and a non-empty document id (so a question
    asked before any document is indexed never reaches the network), and each
    pasted text in flight is non-empty and trimmed. *)
Theorem document_requests_validated :
  forall (events : list Event),
    Forall validated (inflight (run events start)).
Proof.
  intros events.
  apply (document_run_invariant (fun sys => Forall validated (inflight sys))).
  - exact document_step_validated.
  - constructor.
Qed.

Lemma step_turns (sys : System) (e : Event) :
  Forall well_formed_turn (messages (ui sys)) ->
  Forall well_formed_turn (messages (ui (step sys e))).
Proof.
  intros H. destruct e as [v|f|f|v|v| |new_id|n r|n new_id r]; cbn [step];
    try exact H.
  - unfold click_upload. destruct (isUploading (ui sys)); [exact H|].
    destruct (upload_begin_cases (ui sys)) as [[m ->]|[form [_ ->]]];
      unfold dispatch; simpl; exact H.
  - unfold click_send. destruct (isSending (ui sys)); [exact H|].
    destruct (send_begin_cases new_id (ui sys)) as [[m ->]|(_ & Hq & ->)];
      unfold dispatch; simpl; [exact H|].
    apply Forall_app. split; [exact H|]. constructor; [|constructor].
    split; simpl; [apply truthy_nonempty, Hq|]. split; [apply trim_idem | reflexivity].
  - destruct (nth_error (inflight sys) n) as [[form|q d]|]; try exact H.
    cbn [ui]. unfold handleUpload_resume.
    destruct (receive upload_fallback r); simpl; [exact H | constructor].
  - destruct (nth_error (inflight sys) n) as [[form|q d]|]; try exact H.
    cbn [ui]. destruct (send_resume_turn new_id r (ui sys)) as (m & Hr & Hc & ->).
    simpl. apply Forall_app. split; [exact H|]. constructor; [|constructor].
    split; [exact Hc|]. rewrite Hr. exact I.
Qed.

(** Every turn of every reachable transcript has a non-empty content; a user
    turn holds a trimmed question and no sources. *)
Theorem transcript_turns_well_formed :
  forall (events : list Event),
    Forall well_formed_turn (messages (ui (run events start))).
Proof.
  intros events.
  apply (document_run_invariant (fun sys => Forall well_formed_turn (messages (ui sys)))).
  - exact step_turns.
  - constructor.
Qed.

Lemma step_status (sys : System) (e : Event) :
  status_in_step (ui sys) -> status_in_step (ui (step sys e)).
Proof.
  intros H. destruct e as [v|f|f|v|v| |new_id|n r|n new_id r]; simpl; try exact H.
  - unfold click_upload. destruct (isUploading (ui sys)) eqn:Eu; [exact H|].
    destruct H as [Hc Hu].
    destruct (upload_begin_cases (ui sys)) as [[m ->]|[form [_ ->]]];
      unfold dispatch, status_in_step; simpl; rewrite ?Eu;
      (split; [exact Hc | auto]).
  - unfold click_send. destruct (isSending (ui sys)) eqn:Es; [exact H|].
    destruct H as [Hc Hu]. rewrite Es in Hc.
    destruct (send_begin_cases new_id (ui sys)) as [[m ->]|(_ & _ & ->)];
      unfold dispatch, status_in_step; simpl; rewrite ?Es;
      (split; [first [exact Hc | reflexivity] | exact Hu]).
  - destruct (nth_error (inflight sys) n) as [[form|q d]|]; try exact H.
    destruct H as [Hc Hu]. unfold status_in_step, handleUpload_resume. simpl.
    destruct (receive upload_fallback r); simpl; (split; [exact Hc | auto]).
  - destruct (nth_error (inflight sys) n) as [[form|q d]|]; try exact H.
    destruct H as [Hc Hu]. unfold status_in_step, handleSendQuestion_resume. simpl.
    split; [reflexivity | exact Hu].
Qed.

(** The two status lines follow the two flags in every reachable state: the
    chat status reads "Thinking..." exactly while [isSending] is set and is
    empty otherwise; the upload status reads "Uploading and indexing..."
    while [isUploading] is set, and is empty or "Document ready. Start
    chatting!" otherwise. *)
Theorem status_lines_follow_flags :
  forall (events : list Event), status_in_step (ui (run events start)).
Proof.
  intros events.
  apply (document_run_invariant (fun sys => status_in_step (ui sys))).
  - exact step_status.
  - split; [reflexivity | left; reflexivity].
Qed.

End DocumentInvFacts.

(** ** How the operations of the document page compose *)

Module DocumentFlowFacts.
Import Js Fetch JsFacts Document DocumentInv Samples.
Import DocumentInvFacts.

Lemma step_keeps_transcript (sys : System) (e : Event) :
  is_upload_success e = false ->
  documentId (ui (step sys e)) = documentId (ui sys)
  /\ exists suffix, messages (ui (step sys e)) = messages (ui sys) ++ suffix.
Proof.
  intros He.
  assert (Hsame : forall sys' : System,
             documentId (ui sys') = documentId (ui sys) ->
             messages (ui sys') = messages (ui sys) ->
             documentId (ui sys') = documentId (ui sys)
             /\ exists suffix, messages (ui sys') = messages (ui sys) ++ suffix).
  { intros sys' Hd Hm. split; [exact Hd|]. exists []. rewrite app_nil_r. exact Hm. }
  destruct e as [v|f|f|v|v| |new_id|n r|n new_id r]; cbn [step];
    try (apply Hsame; reflexivity).
  - unfold click_upload. destruct (isUploading (ui sys)); [apply Hsame; reflexivity|].
    destruct (upload_begin_cases (ui sys)) as [[m ->]|[form [_ ->]]];
      unfold dispatch; simpl; apply Hsame; reflexivity.
  - unfold click_send. destruct (isSending (ui sys)); [apply Hsame; reflexivity|].
    destruct (send_begin_cases new_id (ui sys)) as [[m ->]|(_ & _ & ->)];
      unfold dispatch; simpl; [apply Hsame; reflexivity|].
    split; [reflexivity|]. eexists. reflexivity.
  - destruct (nth_error (inflight sys) n) as [[form|q d]|];
      try (apply Hsame; reflexivity).
    cbn [ui]. unfold handleUpload_resume. simpl in He.
    destruct (receive upload_fallback r); [|discriminate].
    apply Hsame; reflexivity.
  - destruct (nth_error (inflight sys) n) as [[form|q d]|];
      try (apply Hsame; reflexivity).
    cbn [ui]. destruct (send_resume_turn new_id r (ui sys)) as (m & _ & _ & ->).
    simpl. split; [reflexivity|]. eexists. reflexivity.
Qed.

(** Between two successful ingestions the transcript only grows at its end
    and the identity stays: over any events among which no [/upload] settles
    successfully, the transcript before is a prefix of the transcript after
    (no turn is removed, reordered or edited) and [documentId] is unchanged. *)
Theorem transcript_append_only :
  forall (events : list Event) (sys : System),
    no_upload_success events = true ->
    documentId (ui (run events sys)) = documentId (ui sys)
    /\ exists suffix,
         messages (ui (run events sys)) = messages (ui sys) ++ suffix.
Proof.
  induction events as [|e rest IH]; intros sys H; simpl in *.
  - split; [reflexivity|]. exists []. rewrite app_nil_r. reflexivity.
  - apply andb_true_iff in H. destruct H as [He Hr].
    apply negb_true_iff in He.
    destruct (IH (step sys e) Hr) as (Hd & suffix & Hm).
    destruct (step_keeps_transcript sys e He) as (Hd' & suffix' & Hm').
    split; [congruence|].
    exists (suffix' ++ suffix). rewrite Hm, Hm', app_assoc. reflexivity.
Qed.

Lemma transcript_append_only_witness :
  let sys := run conversation start in
  let events := [ChangeQuestion (lit " And of Spain? "); ClickSend (lit "m3");
                 ClickUpload; SettleChat 0 (lit "m4") index_missing] in
  no_upload_success events = true
  /\ documentId (ui (run events sys)) = documentId (ui sys)
  /\ exists suffix,
       messages (ui (run events sys)) = messages (ui sys) ++ suffix.
Proof.
  split; [reflexivity|].
  apply (transcript_append_only
           [ChangeQuestion (lit " And of Spain? "); ClickSend (lit "m3");
            ClickUpload; SettleChat 0 (lit "m4") index_missing]
           (run conversation start)).
  reflexivity.
Defined.

Lemma step_stays_active (sys : System) (e : Event) :
  returns_id e = true ->
  hasActiveDocument (ui sys) = true ->
  hasActiveDocument (ui (step sys e)) = true.
Proof.
  intros Hid H. destruct (is_upload_success e) eqn:He.
  - destruct e as [v|f|f|v|v| |new_id|n r|n new_id r]; try discriminate.
    cbn [step]. destruct (nth_error (inflight sys) n) as [[form|q d]|]; try exact H.
    cbn [ui]. unfold handleUpload_resume, hasActiveDocument. simpl in He, Hid.
    destruct (receive upload_fallback r) as [message|data]; [discriminate|].
    simpl. exact Hid.
  - unfold hasActiveDocument in *.
    destruct (step_keeps_transcript sys e He) as [-> _]. exact H.
Qed.

(** Once a document is active it stays active, and [documentId] stays
    non-null, over any events among which every [/upload] that settles
    successfully returns a non-empty [document_id]: a failed re-ingestion
    keeps the id, a successful one replaces it, nothing else touches it. *)
Theorem active_document_stays_active :
  forall (events : list Event) (sys : System),
    uploads_return_ids events = true ->
    hasActiveDocument (ui sys) = true ->
    hasActiveDocument (ui (run events sys)) = true
    /\ documentId (ui (run events sys)) <> None.
Proof.
  intros events sys Hids H.
  assert (Ha : hasActiveDocument (ui (run events sys)) = true).
  { revert sys Hids H. induction events as [|e rest IH]; intros sys Hids H; simpl in *.
    - exact H.
    - apply andb_true_iff in Hids. destruct Hids as [He Hr].
      apply (IH _ Hr), step_stays_active; assumption. }
  split; [exact Ha|].
  unfold hasActiveDocument in Ha. intros Hn. rewrite Hn in Ha. discriminate.
Qed.

Lemma active_document_stays_active_witness :
  let events := [ClickUpload; ChangePlainText (lit "Berlin"); ClickUpload;
                 SettleUpload 0 index_missing; ClickUpload; SettleUpload 0 doc2] in
  uploads_return_ids events = true
  /\ hasActiveDocument (ui (run conversation start)) = true
  /\ hasActiveDocument (ui (run events (run conversation start))) = true
  /\ documentId (ui (run events (run conversation start))) <> None.
Proof.
  split; [reflexivity|]. split; [reflexivity|].
  apply (active_document_stays_active
           [ClickUpload; ChangePlainText (lit "Berlin"); ClickUpload;
            SettleUpload 0 index_missing; ClickUpload; SettleUpload 0 doc2]
           (run conversation start)).
  - reflexivity.
  - reflexivity.
Defined.

(** A successful ingestion empties what was staged for it, on all three
    tabs, empties the question box and moves the key of the file inputs on by
    one, while the chosen tab stays; so a second click on the upload button
    right after it is stopped by validation and sends nothing. *)
Theorem upload_success_clears_staging :
  forall (s : State) (r : Reply UploadData) (data : UploadData),
    receive upload_fallback r = Returned data ->
    pdfFile (handleUpload_resume r s) = None
    /\ txtFile (handleUpload_resume r s) = None
    /\ plainText (handleUpload_resume r s) = []
    /\ question (handleUpload_resume r s) = []
    /\ fileInputKey (handleUpload_resume r s) = (fileInputKey s + 1)%Z
    /\ sourceType (handleUpload_resume r s) = sourceType s
    /\ snd (handleUpload_begin (handleUpload_resume r s)) = None
    /\ error (fst (handleUpload_begin (handleUpload_resume r s))) <> None.
Proof.
  intros s r data H. unfold handleUpload_resume. rewrite H.
  repeat split; unfold handleUpload_begin; simpl;
    destruct (sourceType s); simpl; try reflexivity; discriminate.
Qed.

Lemma upload_success_clears_staging_witness :
  let s := fst (handleUpload_begin pasted) in
  plainText s = lit "Paris is the capital of France."
  /\ receive upload_fallback doc1 = Returned (mkUploadData (Some (lit "doc-1")))
  /\ pdfFile (handleUpload_resume doc1 s) = None
  /\ txtFile (handleUpload_resume doc1 s) = None
  /\ plainText (handleUpload_resume doc1 s) = []
  /\ question (handleUpload_resume doc1 s) = []
  /\ fileInputKey (handleUpload_resume doc1 s) = (fileInputKey s + 1)%Z
  /\ sourceType (handleUpload_resume doc1 s) = sourceType s
  /\ snd (handleUpload_begin (handleUpload_resume doc1 s)) = None
  /\ error (fst (handleUpload_begin (handleUpload_resume doc1 s))) <> None.
Proof.
  split; [reflexivity|]. split; [reflexivity|].
  apply (upload_success_clears_staging (fst (handleUpload_begin pasted)) doc1
           (mkUploadData (Some (lit "doc-1")))).
  reflexivity.
Defined.

(** Only the input of the chosen tab is submitted: what is staged on the
    other two tabs has no influence on the request (nor on whether one is
    sent), and the click leaves all three staged inputs where they are. *)
Theorem upload_sends_active_tab_only :
  forall (s : State) (pf tf : option File) (pt : jsstring),
    match sourceType s with
    | pdf => snd (handleUpload_begin (setPlainText pt (setTxtFile tf s)))
             = snd (handleUpload_begin s)
    | txt => snd (handleUpload_begin (setPlainText pt (setPdfFile pf s)))
             = snd (handleUpload_begin s)
    | text => snd (handleUpload_begin (setTxtFile tf (setPdfFile pf s)))
              = snd (handleUpload_begin s)
    end
    /\ pdfFile (fst (handleUpload_begin s)) = pdfFile s
    /\ txtFile (fst (handleUpload_begin s)) = txtFile s
    /\ plainText (fst (handleUpload_begin s)) = plainText s.
Proof.
  intros s pf tf pt. unfold handleUpload_begin.
  destruct s as [st p t x di ms q us cs er iu isd fk]; simpl.
  destruct st; simpl;
    [destruct p | destruct t | destruct (negb (truthy (trim x)))];
    repeat split.
Qed.

(** The file inputs stage the first file of the selection and nothing when
    the selection is empty or null; on the tab of that input the next click
    on the upload button sends exactly that file, or is stopped. *)
Theorem file_selection_then_upload :
  forall (s : State) (files : option (list File)),
    let first := match files with
                 | Some (file :: _) => Some file
                 | _ => None
                 end in
    match sourceType s with
    | pdf => snd (handleUpload_begin (handleFileSelection files setPdfFile s))
             = option_map (fun f => Upload (pdf_file f)) first
    | txt => snd (handleUpload_begin (handleFileSelection files setTxtFile s))
             = option_map (fun f => Upload (txt_file f)) first
    | text => snd (handleUpload_begin (handleFileSelection files setPdfFile s))
              = snd (handleUpload_begin s)
    end.
Proof.
  intros s files first. unfold handleUpload_begin, handleFileSelection.
  destruct s as [st p t x di ms q us cs er iu isd fk]; simpl.
  destruct st; simpl; subst first; destruct files as [[|f rest]|]; simpl;
    try reflexivity; destruct (negb (truthy (trim x))); reflexivity.
Qed.

End DocumentFlowFacts.

(** ** Release of the guards, and bodies that do not parse *)

Module EdgeFacts.
Import Js Fetch JsFacts Samples.

Lemma upload_resume_idle (r : Reply Document.UploadData) (s : Document.State) :
  Document.isUploading (Document.handleUpload_resume r s) = false.
Proof.
  unfold Document.handleUpload_resume.
  destruct (receive Document.upload_fallback r); reflexivity.
Qed.

Lemma send_resume_idle (new_id : jsstring) (r : Reply Document.ChatData)
  (s : Document.State) :
  Document.isSending (Document.handleSendQuestion_resume new_id r s) = false.
Proof. reflexivity. Qed.

(** Every settled request gives its guard back, whatever the reply: from any
    reachable state of the document page, once an [/upload] (a [/chat]) in
    flight settles, the flag of its kind is down, no request of its kind is
    in flight, and the next click on its button runs the handler.  A settle
    event that names no request of its kind changes nothing. *)
Theorem guard_released_on_settle :
  forall (events : list Document.Event) (e : Document.Event),
    let sys := Document.run events Document.start in
    let sys' := Document.step sys e in
    match e with
    | Document.SettleUpload n _ =>
        match nth_error (Document.inflight sys) n with
        | Some (Document.Upload _) =>
            Document.isUploading (Document.ui sys') = false
            /\ Document.uploading sys' = []
            /\ Document.click_upload sys' =
                 Document.dispatch sys' (Document.handleUpload_begin (Document.ui sys'))
        | _ => sys' = sys
        end
    | Document.SettleChat n _ _ =>
        match nth_error (Document.inflight sys) n with
        | Some (Document.Chat _ _) =>
            Document.isSending (Document.ui sys') = false
            /\ Document.chatting sys' = []
            /\ forall new_id,
                 Document.click_send new_id sys' =
                   Document.dispatch sys'
                     (Document.handleSendQuestion_begin new_id (Document.ui sys'))
        | _ => sys' = sys
        end
    | _ => True
    end.
Proof.
  intros events e sys sys'.
  pose proof (DocumentFacts.step_guarded sys e
                (DocumentFacts.reachable_guarded events)) as [Hu Hc].
  fold sys' in Hu, Hc.
  destruct e as [v|f|f|v|v| |new_id|n r|n new_id r]; try exact I.
  - unfold sys' in *. cbn [Document.step] in *.
    destruct (nth_error (Document.inflight sys) n) as [[form|q d]|]; try reflexivity.
    cbn [Document.ui] in *. unfold Document.click_upload. cbn [Document.ui].
    rewrite upload_resume_idle in *.
    split; [reflexivity|]. split; [|reflexivity].
    destruct (Document.uploading _); [reflexivity | discriminate].
  - unfold sys' in *. cbn [Document.step] in *.
    destruct (nth_error (Document.inflight sys) n) as [[form|q d]|]; try reflexivity.
    cbn [Document.ui] in *. unfold Document.click_send. cbn [Document.ui].
    rewrite send_resume_idle in *.
    split; [reflexivity|]. split; [|reflexivity].
    destruct (Document.chatting _); [reflexivity | discriminate].
Qed.

(** A 2xx response whose body does not parse as JSON is a failure at all
    four call sites, with the message of the parse error: [/prepare] shows
    it as the error and not "Video ready", [/ask] shows it and empties the
    answer, [/upload] shows it and keeps identity and transcript, [/chat]
    appends it as an assistant turn after the warning sign. *)
Theorem unparsable_2xx_is_failure :
  forall (status : Z) (text message : jsstring),
    (200 <= status <= 299)%Z ->
    forall (v : Session.State) (d : Document.State) (new_id : jsstring),
      let v1 := Session.prepareVideo_resume
                  (Response status text (@BodyThrows unit message)) v in
      let v2 := Session.askVideoQuestion_resume
                  (Response status text (BodyThrows message)) v in
      let d1 := Document.handleUpload_resume
                  (Response status text (BodyThrows message)) d in
      let d2 := Document.handleSendQuestion_resume new_id
                  (Response status text (BodyThrows message)) d in
      (Session.error v1 = message /\ Session.status v1 = [])
      /\ (Session.error v2 = message /\ Session.answer v2 = []
          /\ Session.sources v2 = [])
      /\ (Document.error d1 = Some message
          /\ Document.documentId d1 = Document.documentId d
          /\ Document.messages d1 = Document.messages d)
      /\ Document.messages d2 =
           Document.messages d ++
             [Document.mkMessage new_id Document.assistant
                (Document.warning ++ message) None].
Proof.
  intros status text message Hs v d new_id v1 v2 d1 d2.
  apply ok_range in Hs.
  unfold v1, v2, d1, d2, Session.prepareVideo_resume, Session.askVideoQuestion_resume,
    Document.handleUpload_resume, Document.handleSendQuestion_resume,
    Session.callBackend, receive.
  rewrite Hs. simpl. repeat split.
Qed.

Lemma unparsable_2xx_is_failure_witness :
  (200 <= 200 <= 299)%Z
  /\ Session.error (Session.prepareVideo_resume
                      (Response 200 [] (@BodyThrows unit (lit "Unexpected end of JSON input")))
                      Session.initial)
       = lit "Unexpected end of JSON input"
  /\ Session.status (Session.prepareVideo_resume
                       (Response 200 [] (@BodyThrows unit (lit "Unexpected end of JSON input")))
                       Session.initial)
       = [].
Proof.
  assert (Hr : (200 <= 200 <= 299)%Z) by lia.
  split; [exact Hr|].
  pose proof (unparsable_2xx_is_failure 200 [] (lit "Unexpected end of JSON input")
                Hr Session.initial chatted []) as H.
  cbv zeta in H. destruct H as ((H1 & H2) & _).
  split; [exact H1 | exact H2].
Defined.

(** Nothing ties a [/chat] in flight to the document it was asked about: when
    its reply arrives after a re-ingestion has settled successfully, the
    assistant turn it produces is the first and only turn of the transcript
    of the new document. *)
Theorem late_answer_lands_in_new_transcript :
  forall (s : Document.State) (ru : Reply Document.UploadData)
         (data : Document.UploadData) (rc : Reply Document.ChatData)
         (new_id : jsstring),
    receive Document.upload_fallback ru = Returned data ->
    let s' := Document.handleSendQuestion_resume new_id rc
                (Document.handleUpload_resume ru s) in
    Document.documentId s' = Document.document_id data
    /\ exists m,
         Document.messages s' = [m]
         /\ Document.role m = Document.assistant
         /\ Document.id m = new_id.
Proof.
  intros s ru data rc new_id H s'. unfold s', Document.handleUpload_resume.
  rewrite H. unfold Document.handleSendQuestion_resume. simpl.
  split; [reflexivity|]. eexists. split; [reflexivity|].
  destruct (receive Document.chat_fallback rc); split; reflexivity.
Qed.

Lemma late_answer_lands_in_new_transcript_witness :
  let asked := fst (Document.handleSendQuestion_begin (lit "m3")
                      (Document.setQuestion (lit "And of Spain?") chatted)) in
  let s' := Document.handleSendQuestion_resume (lit "m4") paris
              (Document.handleUpload_resume doc2 asked) in
  List.length (Document.messages asked) = 3%nat
  /\ receive Document.upload_fallback doc2
       = Returned (Document.mkUploadData (Some (lit "doc-2")))
  /\ Document.documentId s' = Some (lit "doc-2")
  /\ exists m,
       Document.messages s' = [m]
       /\ Document.role m = Document.assistant
       /\ Document.id m = lit "m4".
Proof.
  split; [reflexivity|]. split; [reflexivity|].
  apply (late_answer_lands_in_new_transcript
           (fst (Document.handleSendQuestion_begin (lit "m3")
                   (Document.setQuestion (lit "And of Spain?") chatted)))
           doc2 (Document.mkUploadData (Some (lit "doc-2"))) paris (lit "m4")).
  reflexivity.
Defined.

End EdgeFacts.
